(** * URL Health Monitor: the dashboard's handlers (src/App.js)

    A shallow embedding of the React component [App]: its state hooks, the
    event handlers [handleCheck], [fetchHistory], [fetchMetrics],
    [fetchTrendData], the schedule-status effect, the derived [chartData]
    and the table rows, followed by the properties the specification states
    about them. *)

From Stdlib Require Import List Bool Arith NArith ZArith QArith Qabs Qround Lia.
From Stdlib Require Import Ascii String DecimalString.
Import ListNotations.

(* ===================================================================== *)
(** ** JavaScript strings *)
(* ===================================================================== *)

(** A JavaScript string is a sequence of UTF-16 code units. *)
Definition jsstring := list N.

(** A string literal of the source (all literals of App.js are ASCII). *)
Definition lit (s : string) : jsstring :=
  map N_of_ascii (list_ascii_of_string s).

Definition jsstring_eqb (a b : jsstring) : bool :=
  if list_eq_dec N.eq_dec a b then true else false.

(** [Boolean(s)] for a string: the empty string is the only falsy one. *)
Definition Boolean (s : jsstring) : bool :=
  match s with [] => false | _ :: _ => true end.

(** White space and line terminators of ECMAScript, the code units that
    [String.prototype.trim] strips. *)
Definition is_white_space (c : N) : bool :=
  ((c =? 0x9) || (c =? 0xA) || (c =? 0xB) || (c =? 0xC) || (c =? 0xD)
   || (c =? 0x20) || (c =? 0xA0) || (c =? 0x1680)
   || ((0x2000 <=? c) && (c <=? 0x200A))
   || (c =? 0x2028) || (c =? 0x2029) || (c =? 0x202F) || (c =? 0x205F)
   || (c =? 0x3000) || (c =? 0xFEFF))%N.

Fixpoint trimStart (s : jsstring) : jsstring :=
  match s with
  | [] => []
  | c :: s' => if is_white_space c then trimStart s' else s
  end.

Definition trimEnd (s : jsstring) : jsstring := rev (trimStart (rev s)).

(** [s.trim()] *)
Definition trim (s : jsstring) : jsstring := trimEnd (trimStart s).

(** A string that does not begin with white space, as [trimStart] leaves
    it. *)
Inductive starts_clean : jsstring -> Prop :=
| clean_nil : starts_clean []
| clean_cons c s : is_white_space c = false -> starts_clean (c :: s).

(** [s.split('\n')]: the pieces between line feeds; never the empty list
    (the empty string splits into one empty piece). *)
Fixpoint split_nl (s : jsstring) : list jsstring :=
  match s with
  | [] => [[]]
  | c :: s' =>
      if (c =? 0xA)%N then [] :: split_nl s'
      else match split_nl s' with
           | [] => [[c]]
           | l :: ls => (c :: l) :: ls
           end
  end.

(** [urls.split('\n').map(u => u.trim()).filter(Boolean)] (App.js line 36) *)
Definition urlList_of (urls : jsstring) : list jsstring :=
  filter Boolean (map trim (split_nl urls)).

Definition LF : jsstring := [0xA%N].

(** Decimal text of an integer, as [String(n)] and template literals
    print integers. *)
Definition show_Z (z : Z) : jsstring :=
  lit (NilZero.string_of_int (Z.to_int z)).

Definition show_N (n : N) : jsstring :=
  lit (NilZero.string_of_uint (N.to_uint n)).

(* --------------------------------------------------------------------- *)
(** *** [encodeURIComponent] *)

(** The unreserved set of [encodeURIComponent]: letters, digits and
    [-_.!~*'()]. *)
Definition uri_unreserved (c : N) : bool :=
  (((0x41 <=? c) && (c <=? 0x5A)) || ((0x61 <=? c) && (c <=? 0x7A))
   || ((0x30 <=? c) && (c <=? 0x39))
   || (c =? 0x2D) || (c =? 0x5F) || (c =? 0x2E) || (c =? 0x21)
   || (c =? 0x7E) || (c =? 0x2A) || (c =? 0x27) || (c =? 0x28)
   || (c =? 0x29))%N.

Definition is_lead_surrogate (c : N) : bool :=
  ((0xD800 <=? c) && (c <=? 0xDBFF))%N.

Definition is_trail_surrogate (c : N) : bool :=
  ((0xDC00 <=? c) && (c <=? 0xDFFF))%N.

Definition utf8_octets (cp : N) : list N :=
  (if cp <? 0x80 then [cp]
   else if cp <? 0x800 then
     [N.lor 0xC0 (N.shiftr cp 6); N.lor 0x80 (N.land cp 0x3F)]
   else if cp <? 0x10000 then
     [N.lor 0xE0 (N.shiftr cp 12);
      N.lor 0x80 (N.land (N.shiftr cp 6) 0x3F);
      N.lor 0x80 (N.land cp 0x3F)]
   else
     [N.lor 0xF0 (N.shiftr cp 18);
      N.lor 0x80 (N.land (N.shiftr cp 12) 0x3F);
      N.lor 0x80 (N.land (N.shiftr cp 6) 0x3F);
      N.lor 0x80 (N.land cp 0x3F)])%N.

Definition hex_digit (n : N) : N :=
  (if n <? 10 then 0x30 + n else 0x41 + (n - 10))%N.

(** One octet as [%XX], upper-case hexadecimal. *)
Definition percent_octet (o : N) : jsstring :=
  [0x25%N; hex_digit (N.shiftr o 4); hex_digit (N.land o 0xF)].

Definition percent_encode (cp : N) : jsstring :=
  flat_map percent_octet (utf8_octets cp).

(** [encodeURIComponent(s)]; [None] is the [URIError] the runtime throws on
    a lone surrogate. *)
Fixpoint encodeURIComponent (s : jsstring) : option jsstring :=
  match s with
  | [] => Some []
  | c :: s' =>
      if uri_unreserved c then option_map (cons c) (encodeURIComponent s')
      else if is_trail_surrogate c then None
      else if is_lead_surrogate c then
        match s' with
        | [] => None
        | d :: s'' =>
            if is_trail_surrogate d then
              option_map
                (app (percent_encode
                        ((c - 0xD800) * 0x400 + (d - 0xDC00) + 0x10000)%N))
                (encodeURIComponent s'')
            else None
        end
      else option_map (app (percent_encode c)) (encodeURIComponent s')
  end.

(** [s.isWellFormed()]: every surrogate is half of a pair. *)
Fixpoint isWellFormed (s : jsstring) : bool :=
  match s with
  | [] => true
  | c :: s' =>
      if is_trail_surrogate c then false
      else if is_lead_surrogate c then
        match s' with
        | [] => false
        | d :: s'' => is_trail_surrogate d && isWellFormed s''
        end
      else isWellFormed s'
  end.

(* ===================================================================== *)
(** ** Data received from the API *)
(* ===================================================================== *)

(** One row of [/check_urls], [/history] and [/history_by_url].  JSON
    numbers are modelled by their exact rational value; an absent or
    [null] field is [None]. *)
Record CheckRecord := mkCheckRecord {
  url : jsstring;
  status : jsstring;
  status_code : option Z;
  response_time : option Q;
  checked_at : jsstring
}.

(** One row of [/metrics]. *)
Record MetricsSummary := mkMetricsSummary {
  m_url : jsstring;
  total_checks : nat;
  up_count : nat;
  up_percent : Q;
  error_count : nat;
  error_rate : Q
}.

(** The body of [/schedule/status]. *)
Record MonitorStatus := mkMonitorStatus {
  last_run : option jsstring;
  next_run : option jsstring;
  email_alerts : bool
}.

(* ===================================================================== *)
(** ** Component state (the [useState] hooks, App.js lines 22-31) *)
(* ===================================================================== *)

Record AppState := mkAppState {
  urls : jsstring;
  results : list CheckRecord;
  history : list CheckRecord;
  metrics : list MetricsSummary;
  loading : bool;
  showHistory : bool;
  selectedUrl : jsstring;
  trendData : list CheckRecord;
  monitorStatus : MonitorStatus;
  manualCheckLoading : bool
}.

Definition initial_monitorStatus : MonitorStatus :=
  {| last_run := None; next_run := None; email_alerts := false |}.

Definition initial_state : AppState :=
  {| urls := lit ""; results := []; history := []; metrics := [];
     loading := false; showHistory := false; selectedUrl := lit "";
     trendData := []; monitorStatus := initial_monitorStatus;
     manualCheckLoading := false |}.

Definition with_urls (v : jsstring) (s : AppState) : AppState :=
  mkAppState v (results s) (history s) (metrics s) (loading s)
    (showHistory s) (selectedUrl s) (trendData s) (monitorStatus s)
    (manualCheckLoading s).

Definition with_results (v : list CheckRecord) (s : AppState) : AppState :=
  mkAppState (urls s) v (history s) (metrics s) (loading s)
    (showHistory s) (selectedUrl s) (trendData s) (monitorStatus s)
    (manualCheckLoading s).

Definition with_history (v : list CheckRecord) (s : AppState) : AppState :=
  mkAppState (urls s) (results s) v (metrics s) (loading s)
    (showHistory s) (selectedUrl s) (trendData s) (monitorStatus s)
    (manualCheckLoading s).

Definition with_metrics (v : list MetricsSummary) (s : AppState) : AppState :=
  mkAppState (urls s) (results s) (history s) v (loading s)
    (showHistory s) (selectedUrl s) (trendData s) (monitorStatus s)
    (manualCheckLoading s).

Definition with_loading (v : bool) (s : AppState) : AppState :=
  mkAppState (urls s) (results s) (history s) (metrics s) v
    (showHistory s) (selectedUrl s) (trendData s) (monitorStatus s)
    (manualCheckLoading s).

Definition with_selectedUrl (v : jsstring) (s : AppState) : AppState :=
  mkAppState (urls s) (results s) (history s) (metrics s) (loading s)
    (showHistory s) v (trendData s) (monitorStatus s)
    (manualCheckLoading s).

Definition with_trendData (v : list CheckRecord) (s : AppState) : AppState :=
  mkAppState (urls s) (results s) (history s) (metrics s) (loading s)
    (showHistory s) (selectedUrl s) v (monitorStatus s)
    (manualCheckLoading s).

Definition with_monitorStatus (v : MonitorStatus) (s : AppState) : AppState :=
  mkAppState (urls s) (results s) (history s) (metrics s) (loading s)
    (showHistory s) (selectedUrl s) (trendData s) v
    (manualCheckLoading s).

(* ===================================================================== *)
(** ** The world outside the component *)
(* ===================================================================== *)

(** A JSON value, as carried by an error response of the API. *)
#[local] Unset Elimination Schemes.
Inductive json :=
| JNull
| JBool (b : bool)
| JNumber (q : Q)
| JString (s : jsstring)
| JArray (items : list json)
| JObject (members : list (jsstring * json)).
#[local] Set Elimination Schemes.

(** What a handler can catch: an axios error that carries a response
    ([e.response]), one that carries only the request ([e.request]), or any
    other error with its [message]. *)
Inductive JsError :=
| ErrResponse (status : Z) (data : json)
| ErrRequest
| ErrMessage (message : jsstring).

(** [new URIError('URI malformed')], thrown by [encodeURIComponent]. *)
Definition URIError : JsError := ErrMessage (lit "URI malformed").

(** How a promise settles. *)
Inductive settled (A : Type) :=
| Fulfilled (data : A)
| Rejected (e : JsError).
Arguments Fulfilled {A} data.
Arguments Rejected {A} e.

(** The API server, as the page sees it: how each request settles. *)
Record Server := mkServer {
  post_records : jsstring -> list jsstring -> settled (list CheckRecord);
  get_records : jsstring -> settled (list CheckRecord);
  get_metrics : jsstring -> settled (list MetricsSummary);
  get_status : jsstring -> settled MonitorStatus
}.

(** Built-ins of the JavaScript runtime whose text no handler inspects. *)
Record Runtime := mkRuntime {
  JSON_stringify : json -> jsstring;
  Number_toString : Q -> jsstring;
  toLocaleString : jsstring -> jsstring;
  toLocaleTimeString : jsstring -> jsstring
}.

(** What the page does to the outside, in order. *)
Inductive event :=
| Alert (msg : jsstring)
| HttpPost (target : jsstring) (body_urls : list jsstring)
| HttpGet (target : jsstring).

(** An async function suspended at its [await], not awaited by anybody. *)
Inductive inflight :=
| AwaitHistory (target : jsstring)
| AwaitMetrics (target : jsstring)
| AwaitTrend (target : jsstring).

Record World := mkWorld {
  app : AppState;
  log : list event;
  detached : list inflight
}.

Definition start (s : AppState) : World :=
  {| app := s; log := []; detached := [] |}.

(** A computation either completes or throws; the world comes out of
    both. *)
Inductive outcome (A : Type) :=
| Done (a : A) (w : World)
| Thrown (e : JsError) (w : World).
Arguments Done {A} a w.
Arguments Thrown {A} e w.

Definition Task (A : Type) : Type := World -> outcome A.

Definition world_of {A} (o : outcome A) : World :=
  match o with Done _ w => w | Thrown _ w => w end.

Definition ret {A} (a : A) : Task A := fun w => Done a w.

Definition bind {A B} (m : Task A) (k : A -> Task B) : Task B :=
  fun w => match m w with
           | Done a w' => k a w'
           | Thrown e w' => Thrown e w'
           end.

Definition throw {A} (e : JsError) : Task A := fun w => Thrown e w.

(** [try { m } catch (e) { h e }] *)
Definition try_catch {A} (m : Task A) (h : JsError -> Task A) : Task A :=
  fun w => match m w with
           | Done a w' => Done a w'
           | Thrown e w' => h e w'
           end.

Declare Scope task_scope.
Delimit Scope task_scope with task.
Notation "x <- m ;; k" := (bind m (fun x => k))
  (at level 61, m at next level, right associativity) : task_scope.
Notation "m ;; k" := (bind m (fun _ => k))
  (at level 61, right associativity) : task_scope.
Open Scope task_scope.

Definition gets {A} (f : AppState -> A) : Task A :=
  fun w => Done (f (app w)) w.

Definition modify (f : AppState -> AppState) : Task unit :=
  fun w => Done tt (mkWorld (f (app w)) (log w) (detached w)).

Definition emit (e : event) : Task unit :=
  fun w => Done tt (mkWorld (app w) (log w ++ [e]) (detached w)).

Definition await {A} (r : settled A) : Task A :=
  match r with
  | Fulfilled data => ret data
  | Rejected e => throw e
  end.

Definition alert (msg : jsstring) : Task unit := emit (Alert msg).

Definition setResults v := modify (with_results v).
Definition setHistory v := modify (with_history v).
Definition setMetrics v := modify (with_metrics v).
Definition setLoading v := modify (with_loading v).
Definition setTrendData v := modify (with_trendData v).
Definition setMonitorStatus v := modify (with_monitorStatus v).
Definition setSelectedUrl v := modify (with_selectedUrl v).
Definition setUrls v := modify (with_urls v).

(** Calling an async function without awaiting it: it runs up to its
    [await] and stays in flight; if it throws before that, its promise is
    rejected and nobody sees it. *)
Definition unawaited (begin : Task (option inflight)) : Task unit :=
  fun w => match begin w with
           | Done (Some k) w' =>
               Done tt (mkWorld (app w') (log w') (detached w' ++ [k]))
           | Done None w' => Done tt w'
           | Thrown _ w' => Done tt w'
           end.

Definition API_BASE : jsstring := lit "http://localhost:8000".

Definition check_urls_endpoint : jsstring := API_BASE ++ lit "/check_urls".
Definition history_endpoint (limit : N) : jsstring :=
  API_BASE ++ lit "/history?limit=" ++ show_N limit.
Definition metrics_endpoint : jsstring := API_BASE ++ lit "/metrics".
Definition history_by_url_endpoint (encoded : jsstring) (limit : N) : jsstring :=
  API_BASE ++ lit "/history_by_url?url=" ++ encoded ++ lit "&limit="
  ++ show_N limit.
Definition schedule_status_endpoint : jsstring :=
  API_BASE ++ lit "/schedule/status".

(* ===================================================================== *)
(** ** The handlers of [App] *)
(* ===================================================================== *)

Section Handlers.

Variable rt : Runtime.
Variable srv : Server.

(** [axios.post(target, { urls })] and [axios.get(target)], awaited: the
    request goes out, then the promise settles as the server decides. *)
Definition axios_post (target : jsstring) (body : list jsstring)
  : Task (list CheckRecord) :=
  emit (HttpPost target body) ;; await (post_records srv target body).

Definition axios_get {A} (answer : Server -> jsstring -> settled A)
    (target : jsstring) : Task A :=
  emit (HttpGet target) ;; await (answer srv target).

(** The rest of a fetcher once its request has settled
    ([setHistory(res.data)] and the like). *)
Definition resume (k : inflight) : Task unit :=
  match k with
  | AwaitHistory target =>
      data <- await (get_records srv target) ;; setHistory data
  | AwaitMetrics target =>
      data <- await (get_metrics srv target) ;; setMetrics data
  | AwaitTrend target =>
      data <- await (get_records srv target) ;; setTrendData data
  end.

(** [fetchHistory] (App.js lines 60-63), up to its [await]. *)
Definition fetchHistory_begin : Task (option inflight) :=
  let target := API_BASE ++ lit "/history?limit=20" in
  emit (HttpGet target) ;; ret (Some (AwaitHistory target)).

(** [fetchMetrics] (lines 65-68), up to its [await]. *)
Definition fetchMetrics_begin : Task (option inflight) :=
  let target := API_BASE ++ lit "/metrics" in
  emit (HttpGet target) ;; ret (Some (AwaitMetrics target)).

(** [fetchTrendData] (lines 70-74), up to its [await]. *)
Definition fetchTrendData_begin (u : jsstring) : Task (option inflight) :=
  if negb (Boolean u) then ret None
  else
    match encodeURIComponent u with
    | None => throw URIError
    | Some encoded =>
        let target :=
          API_BASE ++ lit "/history_by_url?url=" ++ encoded
          ++ lit "&limit=30" in
        emit (HttpGet target) ;; ret (Some (AwaitTrend target))
    end.

(** An async function run to completion. *)
Definition completed (begin : Task (option inflight)) : Task unit :=
  k <- begin ;;
  match k with
  | Some k => resume k
  | None => ret tt
  end.

Definition fetchHistory : Task unit := completed fetchHistory_begin.
Definition fetchMetrics : Task unit := completed fetchMetrics_begin.
Definition fetchTrendData (u : jsstring) : Task unit :=
  completed (fetchTrendData_begin u).

(** The message of the [catch] block of [handleCheck] (lines 47-54). *)
Definition check_error_message (e : JsError) : jsstring :=
  let msg := lit "Error checking URLs." in
  match e with
  | ErrResponse status data =>
      msg ++ (LF ++ lit "Status: " ++ show_Z status ++ LF
              ++ JSON_stringify rt data)
  | ErrRequest =>
      msg ++ (LF ++ lit "No response from backend. Is it running?")
  | ErrMessage message => msg ++ (LF ++ message)
  end.

(** [handleCheck] (lines 33-58).  The [try] block yields [true] when it
    left the function through its [return]. *)
Definition handleCheck : Task unit :=
  setLoading true ;;
  urls <- gets urls ;;
  returned <-
    try_catch
      (let urlList := urlList_of urls in
       if (List.length urlList =? 0)%nat then
         alert (lit "Please enter at least one valid URL.") ;;
         setLoading false ;;
         ret true
       else
         data <- axios_post (API_BASE ++ lit "/check_urls") urlList ;;
         setResults data ;;
         unawaited fetchHistory_begin ;;
         unawaited fetchMetrics_begin ;;
         ret false)
      (fun e => alert (check_error_message e) ;; ret false) ;;
  if (returned : bool) then ret tt else setLoading false.

(** The detached fetchers settle, oldest first; a rejection is an
    unhandled one and changes nothing. *)
Fixpoint settle_all (ks : list inflight) (w : World) : World :=
  match ks with
  | [] => w
  | k :: ks' => settle_all ks' (world_of (resume k w))
  end.

Definition settle_detached (w : World) : World :=
  settle_all (detached w) (mkWorld (app w) (log w) []).

(** [fetchStatus] of the status effect (lines 86-93). *)
Definition fetchStatus : Task unit :=
  try_catch
    (data <- axios_get get_status (API_BASE ++ lit "/schedule/status") ;;
     setMonitorStatus data)
    (fun _ =>
       setMonitorStatus
         {| last_run := None; next_run := None; email_alerts := false |}).

(* --------------------------------------------------------------------- *)
(** *** What is rendered *)

(** [x.toFixed(2)]: sign, then the nearest number of hundredths (the
    larger one on a tie) printed with two decimals; from 10^21 on, the
    runtime's own number-to-string. *)
Definition toFixed2 (x : Q) : jsstring :=
  let s := if Qle_bool 0 x then lit "" else lit "-" in
  let a := Qabs x in
  let m :=
    if Qle_bool (inject_Z (10 ^ 21)) a then Number_toString rt a
    else
      let n := Z.to_N (Qfloor (a * inject_Z 100 + (1 # 2))) in
      let d := show_N n in
      let d := repeat 0x30%N (3 - List.length d) ++ d in
      firstn (List.length d - 2) d ++ lit "." ++ skipn (List.length d - 2) d in
  s ++ m.

(** Truthiness of a number ([NaN] cannot come out of JSON). *)
Definition truthy (x : Q) : bool := negb (Qeq_bool x 0).

(** [{row.status_code ?? '-'}] *)
Definition status_code_cell (row : CheckRecord) : jsstring :=
  match status_code row with
  | Some code => show_Z code
  | None => lit "-"
  end.

(** [{row.response_time ? row.response_time.toFixed(2) : '-'}] *)
Definition response_time_cell (row : CheckRecord) : jsstring :=
  match response_time row with
  | Some t => if truthy t then toFixed2 t else lit "-"
  | None => lit "-"
  end.

(** The five cells of a row of the results and history tables (lines
    225-231 and 256-262, the same code twice). *)
Record TableRow := mkTableRow {
  cell_url : jsstring;
  cell_status : jsstring;
  cell_status_code : jsstring;
  cell_response_time : jsstring;
  cell_checked_at : jsstring
}.

Definition render_row (row : CheckRecord) : TableRow :=
  {| cell_url := url row;
     cell_status := status row;
     cell_status_code := status_code_cell row;
     cell_response_time := response_time_cell row;
     cell_checked_at := toLocaleString rt (checked_at row) |}.

Definition results_table (s : AppState) : list TableRow :=
  map render_row (results s).

Definition history_table (s : AppState) : list TableRow :=
  map render_row (history s).

(** [chartData] (lines 99-118): labels and the two data series. *)
Record ChartData := mkChartData {
  labels : list jsstring;
  response_time_series : list Q;
  status_series : list Z
}.

Definition response_time_point (d : CheckRecord) : Q :=
  match response_time d with
  | Some t => if truthy t then t else 0
  | None => 0
  end.

Definition status_point (d : CheckRecord) : Z :=
  if jsstring_eqb (status d) (lit "UP") then 1 else 0.

Definition chartData (s : AppState) : ChartData :=
  {| labels := map (fun d => toLocaleTimeString rt (checked_at d)) (trendData s);
     response_time_series := map response_time_point (trendData s);
     status_series := map status_point (trendData s) |}.

End Handlers.

(* ===================================================================== *)
(** ** The Metrics Aggregator *)
(* ===================================================================== *)

Module Aggregator.

(** Modelled from the spec: the Metrics Aggregator that computes the rows of
    [/metrics] is server code and not among the sources of the dashboard;
    sections 3 (MetricsSummary) and 4.3 of the specification describe it.
    It scans the History Store, here the list of records appended so
    far. *)
Definition is_up (r : CheckRecord) : bool :=
  jsstring_eqb (status r) (lit "UP").

Definition records_of (store : list CheckRecord) (u : jsstring)
  : list CheckRecord :=
  filter (fun r => jsstring_eqb (url r) u) store.

(** Modelled from the spec: division as the aggregator's arithmetic has it;
    a zero divisor is the division fault, [None]. *)
Definition divide (a b : Q) : option Q :=
  if Qeq_bool b 0 then None else Some (a / b).

(** Modelled from the spec: "up_percent = up_count/total_checks x 100 (0 if
    total_checks = 0, never a division fault)". *)
Definition up_percent_of (up total : nat) : option Q :=
  if (total =? 0)%nat then Some 0
  else
    option_map (fun q => q * inject_Z 100)
      (divide (inject_Z (Z.of_nat up)) (inject_Z (Z.of_nat total))).

(** Modelled from the spec: the MetricsSummary of one URL, "total_checks,
    up_count, error_count (= total - up_count), up_percent, error_rate =
    100 - up_percent"; [None] if computing it faults. *)
Definition summary_of (store : list CheckRecord) (u : jsstring)
  : option MetricsSummary :=
  let rs := records_of store u in
  let total := List.length rs in
  let up := List.length (filter is_up rs) in
  match up_percent_of up total with
  | None => None
  | Some p =>
      Some {| m_url := u;
              total_checks := total;
              up_count := up;
              up_percent := p;
              error_count := total - up;
              error_rate := inject_Z 100 - p |}
  end.

Definition distinct_urls (store : list CheckRecord) : list jsstring :=
  nodup (list_eq_dec N.eq_dec) (map url store).

Fixpoint all_or_fault {A} (l : list (option A)) : option (list A) :=
  match l with
  | [] => Some []
  | None :: _ => None
  | Some a :: l' => option_map (cons a) (all_or_fault l')
  end.

(** Modelled from the spec: "summarize() -> sequence of MetricsSummary, one
    entry per distinct URL ever observed". *)
Definition summarize (store : list CheckRecord)
  : option (list MetricsSummary) :=
  all_or_fault (map (summary_of store) (distinct_urls store)).

(** The three equations the specification states of a summary. *)
Definition consistent (m : MetricsSummary) : Prop :=
  (up_count m + error_count m = total_checks m)%nat
  /\ ((0 < total_checks m)%nat -> up_percent m + error_rate m == inject_Z 100)
  /\ (total_checks m = 0%nat -> up_percent m == 0).

End Aggregator.

(* ===================================================================== *)
(** ** The rest of the page: effects, the manual check, what is shown *)
(* ===================================================================== *)

(** [pieces.join('\n')], the inverse of [split('\n')]. *)
Fixpoint join_nl (pieces : list jsstring) : jsstring :=
  match pieces with
  | [] => []
  | [p] => p
  | p :: ps => p ++ LF ++ join_nl ps
  end.

Definition has_line_feed (s : jsstring) : bool :=
  existsb (fun c => (c =? 0xA)%N) s.

(** A code unit is sixteen bits wide. *)
Definition is_code_unit (c : N) : bool := (c <? 0x10000)%N.

(** What [encodeURIComponent] can put out: an unreserved character, a
    percent sign or an upper-case hexadecimal digit. *)
Definition is_hex_upper (c : N) : bool :=
  (((0x30 <=? c) && (c <=? 0x39)) || ((0x41 <=? c) && (c <=? 0x46)))%N.

Definition uri_safe (c : N) : bool :=
  uri_unreserved c || (c =? 0x25)%N || is_hex_upper c.

Definition is_digit (c : N) : bool := ((0x30 <=? c) && (c <=? 0x39))%N.

Definition with_manualCheckLoading (v : bool) (s : AppState) : AppState :=
  mkAppState (urls s) (results s) (history s) (metrics s) (loading s)
    (showHistory s) (selectedUrl s) (trendData s) (monitorStatus s) v.

(** The effect of lines 76-79, run once when the page mounts: both
    fetchers are called and neither is awaited. *)
Definition mount_effect : Task unit :=
  unawaited fetchHistory_begin ;; unawaited fetchMetrics_begin.

(** A click on the url button of a metrics row (line 295),
    [setSelectedUrl(row.url)], and then the effect of lines 81-83, which
    React runs only if [selectedUrl] has changed. *)
Definition select_url (u : jsstring) : Task unit :=
  previous <- gets selectedUrl ;;
  setSelectedUrl u ;;
  if jsstring_eqb previous u then ret tt
  else unawaited (fetchTrendData_begin u).

(** [triggerManualCheck] (lines 169-177).  Its request has no body, and on
    success it leaves a timer behind; both are kept beside the state. *)
Definition run_now_endpoint : jsstring := API_BASE ++ lit "/schedule/run_now".

Record ManualCheck := mkManualCheck {
  mc_app : AppState;
  mc_posts : list jsstring;
  mc_timers : list N
}.

Definition triggerManualCheck (run_now : jsstring -> settled unit)
    (s : AppState) : ManualCheck :=
  let s1 := with_manualCheckLoading true s in
  let target := API_BASE ++ lit "/schedule/run_now" in
  match run_now target with
  | Fulfilled _ =>
      {| mc_app := s1; mc_posts := [target]; mc_timers := [2000%N] |}
  | Rejected _ =>
      {| mc_app := with_manualCheckLoading false s1;
         mc_posts := [target]; mc_timers := [] |}
  end.

(** The callback of the timer, [() => setManualCheckLoading(false)]. *)
Definition manual_check_timer_fires (s : AppState) : AppState :=
  with_manualCheckLoading false s.

Fixpoint timers_fire (timers : list N) (s : AppState) : AppState :=
  match timers with
  | [] => s
  | _ :: timers' => timers_fire timers' (manual_check_timer_fires s)
  end.

(** [StatusBadge] (lines 144-153): the chip's label and colour. *)
Inductive chip_color := color_success | color_error | color_default.

Definition StatusBadge (status : jsstring) : jsstring * chip_color :=
  (status, if jsstring_eqb status (lit "UP") then color_success
           else color_error).

(** The body of a table: [LoadingSkeleton] with its rows and columns, or
    one rendered row per record. *)
Inductive table_body :=
| LoadingSkeleton (rows cols : nat)
| Rows (rows : list TableRow).

Section View.

Variable rt : Runtime.

(** Lines 207-237: the Latest Check Results section is there only if
    [results.length > 0]. *)
Definition results_section (s : AppState) : option table_body :=
  if (0 <? List.length (results s))%nat then
    Some (if loading s then LoadingSkeleton 3 5
          else Rows (map (render_row rt) (results s)))
  else None.

(** Lines 253-263. *)
Definition history_body (s : AppState) : table_body :=
  if (List.length (history s) =? 0)%nat then LoadingSkeleton 5 5
  else Rows (map (render_row rt) (history s)).

(** Lines 312-317: the Monitoring Status line. *)
Definition run_text (t : option jsstring) : jsstring :=
  match t with
  | Some t => if Boolean t then toLocaleString rt t else lit "N/A"
  | None => lit "N/A"
  end.

Record MonitorPanel := mkMonitorPanel {
  last_check_text : jsstring;
  next_check_text : jsstring;
  alerts_chip : jsstring * chip_color
}.

Definition monitor_panel (s : AppState) : MonitorPanel :=
  let m := monitorStatus s in
  {| last_check_text := run_text (last_run m);
     next_check_text := run_text (next_run m);
     alerts_chip :=
       (if email_alerts m then lit "Email Alerts ON"
        else lit "Email Alerts OFF",
        if email_alerts m then color_success else color_default) |}.

(** Line 323: the trend chart is there only if
    [selectedUrl && trendData.length > 0]. *)
Definition chart_section (s : AppState) : option ChartData :=
  if Boolean (selectedUrl s) && (0 <? List.length (trendData s))%nat
  then Some (chartData rt s) else None.

(** Line 202: [disabled={loading}]. *)
Definition check_button_disabled (s : AppState) : bool := loading s.

End View.

(* ===================================================================== *)
(** ** Sample data *)
(* ===================================================================== *)

Module Sample.

Definition rt : Runtime :=
  {| JSON_stringify := fun _ => lit "{}";
     Number_toString := fun _ => lit "1e+21";
     toLocaleString := fun t => t;
     toLocaleTimeString := fun t => t |}.

Definition good : CheckRecord :=
  {| url := lit "https://good.example"; status := lit "UP";
     status_code := Some 200%Z; response_time := Some (1 # 5);
     checked_at := lit "2024-05-01T10:00:00" |}.

Definition bad : CheckRecord :=
  {| url := lit "https://bad.example"; status := lit "DOWN";
     status_code := None; response_time := None;
     checked_at := lit "2024-05-01T10:00:03" |}.

(** A record of a response that took no measurable time. *)
Definition instant : CheckRecord :=
  {| url := lit "https://good.example"; status := lit "UP";
     status_code := Some 200%Z; response_time := Some 0;
     checked_at := lit "2024-05-01T10:05:00" |}.

Definition busy_status : MonitorStatus :=
  {| last_run := Some (lit "2024-05-01T10:00:00");
     next_run := Some (lit "2024-05-01T10:05:00");
     email_alerts := true |}.

(** A server that answers every request. *)
Definition up : Server :=
  {| post_records := fun _ _ => Fulfilled [good; bad];
     get_records := fun _ => Fulfilled [bad; good];
     get_metrics := fun _ => Fulfilled [];
     get_status := fun _ => Fulfilled busy_status |}.

(** A server that cannot be reached. *)
Definition down : Server :=
  {| post_records := fun _ _ => Rejected ErrRequest;
     get_records := fun _ => Rejected ErrRequest;
     get_metrics := fun _ => Rejected ErrRequest;
     get_status := fun _ => Rejected ErrRequest |}.

(** A page that already shows something. *)
Definition shown : AppState :=
  {| urls := lit "  https://good.example " ++ LF ++ lit " " ++ LF
             ++ lit "https://bad.example";
     results := [instant]; history := [instant; bad]; metrics := [];
     loading := false; showHistory := true;
     selectedUrl := lit "https://good.example";
     trendData := [bad; instant; good]; monitorStatus := busy_status;
     manualCheckLoading := false |}.

(** The same page with only blank lines in the text field. *)
Definition blank : AppState :=
  with_urls (lit "   " ++ LF ++ [0x9%N; 0xA0%N] ++ LF) shown.

End Sample.

(* ===================================================================== *)
(** * Properties *)
(* ===================================================================== *)

(** ** Strings: [split], [trim], [filter(Boolean)] *)

Example split_nl_ex :
  split_nl (lit " a" ++ LF ++ lit "b " ++ LF ++ LF) =
  [lit " a"; lit "b "; lit ""; lit ""].
Proof. reflexivity. Qed.

Example urlList_of_ex :
  urlList_of (lit "  http://a.example " ++ LF ++ [0x3000%N] ++ LF
              ++ lit "http://b.example") =
  [lit "http://a.example"; lit "http://b.example"].
Proof. reflexivity. Qed.

Lemma split_nl_nonempty (s : jsstring) : split_nl s <> [].
Proof.
  destruct s as [|c s]; simpl; [discriminate|].
  destruct (c =? 10)%N; [discriminate|].
  destruct (split_nl s); discriminate.
Qed.

Lemma Boolean_true_iff (s : jsstring) : Boolean s = true <-> s <> [].
Proof. destruct s; simpl; split; congruence. Qed.

Lemma trimStart_clean (s : jsstring) : starts_clean (trimStart s).
Proof.
  induction s as [|c s IH]; simpl; [constructor|].
  destruct (is_white_space c) eqn:E; [exact IH | now constructor].
Qed.

Lemma trimStart_fix (s : jsstring) : starts_clean s -> trimStart s = s.
Proof. intros [|c s' E]; simpl; [reflexivity | now rewrite E]. Qed.

Lemma trimStart_idem (s : jsstring) : trimStart (trimStart s) = trimStart s.
Proof. apply trimStart_fix, trimStart_clean. Qed.

Lemma trimStart_app (l m : jsstring) :
  trimStart (l ++ m) =
  match trimStart l with
  | [] => trimStart m
  | _ :: _ => trimStart l ++ m
  end.
Proof.
  induction l as [|c l IH]; simpl.
  - now destruct (trimStart m).
  - destruct (is_white_space c); [exact IH | reflexivity].
Qed.

Lemma trimEnd_idem (s : jsstring) : trimEnd (trimEnd s) = trimEnd s.
Proof. unfold trimEnd. now rewrite rev_involutive, trimStart_idem. Qed.

(** Stripping the end keeps a clean start. *)
Lemma trimEnd_clean (s : jsstring) : starts_clean s -> starts_clean (trimEnd s).
Proof.
  intros [|c s' E]; [constructor|].
  unfold trimEnd. simpl rev. rewrite trimStart_app.
  destruct (trimStart (rev s')) as [|d t] eqn:Et.
  - simpl. rewrite E. simpl. now constructor.
  - rewrite rev_app_distr. simpl. now constructor.
Qed.

Lemma trim_clean (s : jsstring) : starts_clean (trim s).
Proof. apply trimEnd_clean, trimStart_clean. Qed.

Lemma trim_idem (s : jsstring) : trim (trim s) = trim s.
Proof.
  unfold trim at 1. rewrite (trimStart_fix _ (trim_clean s)).
  unfold trim. apply trimEnd_idem.
Qed.

Lemma urlList_of_spec (text u : jsstring) :
  In u (urlList_of text) <->
  exists line, In line (split_nl text) /\ u = trim line /\ u <> [].
Proof.
  unfold urlList_of. rewrite filter_In, in_map_iff, Boolean_true_iff.
  split.
  - intros [(line & <- & Hin) Hne]. now exists line.
  - intros (line & Hin & -> & Hne). split; [now exists line | assumption].
Qed.

Lemma urlList_of_blank (text : jsstring) :
  Forall (fun line => trim line = []) (split_nl text) <->
  urlList_of text = [].
Proof.
  unfold urlList_of. induction (split_nl text) as [|l ls IH]; simpl.
  - split; [reflexivity | constructor].
  - destruct (trim l) as [|c t] eqn:E; simpl.
    + rewrite <- IH. split.
      * now inversion 1.
      * now constructor.
    + split; [|discriminate]. inversion 1; subst. congruence.
Qed.

Lemma trim_fixed_clean (s : jsstring) :
  trim s = s -> starts_clean s /\ starts_clean (rev s).
Proof.
  intros E. split.
  - rewrite <- E. apply trim_clean.
  - rewrite <- E. unfold trim, trimEnd. rewrite rev_involutive.
    apply trimStart_clean.
Qed.

(** ** [handleCheck] *)

Section HandleCheck.

Variable rt : Runtime.
Variable srv : Server.

(** The three ways through [handleCheck]: nothing to check, the request
    fulfilled, the request rejected. *)
Lemma handleCheck_runs (w : World) :
  handleCheck rt srv w =
  Done tt
    (let s := app w in
     let urlList := urlList_of (urls s) in
     match urlList with
     | [] =>
         mkWorld (with_loading false s)
           (log w ++ [Alert (lit "Please enter at least one valid URL.")])
           (detached w)
     | _ :: _ =>
         match post_records srv check_urls_endpoint urlList with
         | Fulfilled data =>
             mkWorld (with_loading false (with_results data s))
               (log w ++ [HttpPost check_urls_endpoint urlList;
                          HttpGet (history_endpoint 20);
                          HttpGet metrics_endpoint])
               (detached w ++ [AwaitHistory (history_endpoint 20);
                               AwaitMetrics metrics_endpoint])
         | Rejected e =>
             mkWorld (with_loading false s)
               (log w ++ [HttpPost check_urls_endpoint urlList;
                          Alert (check_error_message rt e)])
               (detached w)
         end
     end).
Proof.
  unfold handleCheck, bind, try_catch, setLoading, modify, gets.
  cbn [app log detached].
  change (urls (with_loading true (app w))) with (urls (app w)).
  destruct (urlList_of (urls (app w))) as [|u us] eqn:E.
  - reflexivity.
  - cbn [List.length Nat.eqb].
    unfold axios_post, bind, emit, await. cbn [app log detached].
    change (API_BASE ++ lit "/check_urls") with check_urls_endpoint.
    destruct (post_records srv check_urls_endpoint (u :: us)) as [data|e].
    + unfold ret, setResults, modify, unawaited, fetchHistory_begin,
        fetchMetrics_begin, bind, emit, ret. cbn [app log detached].
      rewrite <- !app_assoc. reflexivity.
    + unfold throw, alert, emit, bind, ret. cbn [app log detached].
      rewrite <- !app_assoc. reflexivity.
Qed.

Lemma handleCheck_completes (w : World) :
  handleCheck rt srv w = Done tt (world_of (handleCheck rt srv w)).
Proof. now rewrite handleCheck_runs. Qed.

(** C1. When every line of the text field is empty after trimming (the
    empty text included), [handleCheck] completes having sent no request at
    all, so nothing reaches the check endpoint or the prober behind it; it
    has told the user that the input is not valid, and the loading flag
    is back to false.  Nothing else of the page has changed. *)
Theorem handleCheck_blank_input (w : World) :
  Forall (fun line => trim line = []) (split_nl (urls (app w))) ->
  exists w',
    handleCheck rt srv w = Done tt w'
    /\ log w' = log w ++ [Alert (lit "Please enter at least one valid URL.")]
    /\ (forall target body,
          In (HttpPost target body) (log w') ->
          In (HttpPost target body) (log w))
    /\ (forall target,
          In (HttpGet target) (log w') -> In (HttpGet target) (log w))
    /\ loading (app w') = false
    /\ app w' = with_loading false (app w)
    /\ detached w' = detached w.
Proof.
  intros Hblank. apply urlList_of_blank in Hblank.
  eexists. split; [apply handleCheck_runs|].
  cbv zeta. rewrite Hblank. cbn [app log detached].
  repeat split; try reflexivity.
  - intros target body. rewrite in_app_iff.
    intros [H|[H|[]]]; [assumption | discriminate].
  - intros target. rewrite in_app_iff.
    intros [H|[H|[]]]; [assumption | discriminate].
Qed.

(** C2. Whatever the text field holds, every url of the list that
    [handleCheck] posts to the check endpoint is a non-empty string equal
    to its own trim: it neither begins nor ends with white space. *)
Theorem handleCheck_submits_trimmed (s : AppState) target body :
  In (HttpPost target body) (log (world_of (handleCheck rt srv (start s)))) ->
  target = check_urls_endpoint
  /\ body = urlList_of (urls s)
  /\ Forall (fun u => u <> [] /\ trim u = u
                     /\ starts_clean u /\ starts_clean (rev u)) body.
Proof.
  rewrite handleCheck_runs. cbn [world_of start app log detached].
  cbv zeta.
  assert (Hall : Forall (fun u => u <> [] /\ trim u = u
                     /\ starts_clean u /\ starts_clean (rev u))
                   (urlList_of (urls s))).
  { apply Forall_forall. intros u Hu.
    apply urlList_of_spec in Hu. destruct Hu as (line & _ & -> & Hne).
    split; [assumption|]. split; [apply trim_idem|].
    apply trim_fixed_clean, trim_idem. }
  destruct (urlList_of (urls s)) as [|u us] eqn:E.
  - cbn [app log]. intros [H|[]]. discriminate.
  - destruct (post_records srv check_urls_endpoint (u :: us)) as [data|e];
      cbn [app log].
    + intros [H|[H|[H|[]]]]; try discriminate.
      injection H as <- <-. auto.
    + intros [H|[H|[]]]; try discriminate.
      injection H as <- <-. auto.
Qed.

Lemma resume_keeps_results (k : inflight) (w : World) :
  results (app (world_of (resume srv k w))) = results (app w).
Proof.
  destruct k as [t|t|t]; unfold resume, bind, await, setHistory, setMetrics,
    setTrendData, modify, ret, throw.
  - destruct (get_records srv t); reflexivity.
  - destruct (get_metrics srv t); reflexivity.
  - destruct (get_records srv t); reflexivity.
Qed.

Lemma settle_all_keeps_results (ks : list inflight) (w : World) :
  results (app (settle_all srv ks w)) = results (app w).
Proof.
  revert w. induction ks as [|k ks IH]; intros w; simpl; [reflexivity|].
  rewrite IH. apply resume_keeps_results.
Qed.

(** C4. When the check request is sent and fulfilled, the results the page
    shows once [handleCheck] has completed are exactly the records that
    came back, whatever was shown before; and they are still exactly those
    once the detached history and metrics fetchers have settled. *)
Theorem handleCheck_success_replaces_results (w : World) data :
  urlList_of (urls (app w)) <> [] ->
  post_records srv check_urls_endpoint (urlList_of (urls (app w)))
    = Fulfilled data ->
  exists w',
    handleCheck rt srv w = Done tt w'
    /\ results (app w') = data
    /\ results (app (settle_detached srv w')) = data
    /\ loading (app w') = false.
Proof.
  intros Hne Hpost. eexists. split; [apply handleCheck_runs|].
  cbv zeta. destruct (urlList_of (urls (app w))) as [|u us]; [congruence|].
  rewrite Hpost. unfold settle_detached. rewrite settle_all_keeps_results.
  cbn [app]. repeat split; reflexivity.
Qed.

(** C8. When the check request is sent and rejected, be it with an error
    response, with no response at all or with any other error, and whatever
    the page showed before, [handleCheck] completes with results, history
    and metrics as they were (only the loading flag is written, and it is
    false), and it has shown the user a message that begins with
    "Error checking URLs.". *)
Theorem handleCheck_failure_keeps_state (w : World) e :
  urlList_of (urls (app w)) <> [] ->
  post_records srv check_urls_endpoint (urlList_of (urls (app w)))
    = Rejected e ->
  exists w',
    handleCheck rt srv w = Done tt w'
    /\ results (app w') = results (app w)
    /\ history (app w') = history (app w)
    /\ metrics (app w') = metrics (app w)
    /\ app w' = with_loading false (app w)
    /\ loading (app w') = false
    /\ log w' = log w ++ [HttpPost check_urls_endpoint
                             (urlList_of (urls (app w)));
                          Alert (check_error_message rt e)]
    /\ detached w' = detached w
    /\ exists detail,
         check_error_message rt e
         = lit "Error checking URLs." ++ LF ++ detail.
Proof.
  intros Hne Hpost. eexists. split; [apply handleCheck_runs|].
  cbv zeta. destruct (urlList_of (urls (app w))) as [|u us]; [congruence|].
  rewrite Hpost. cbn [app log detached].
  repeat split; try reflexivity.
  destruct e; eexists; reflexivity.
Qed.

End HandleCheck.

(** ** The fetchers *)

Example encodeURIComponent_ex :
  encodeURIComponent (lit "https://a.example/?q=1 2&x=~'()*!") =
  Some (lit "https%3A%2F%2Fa.example%2F%3Fq%3D1%202%26x%3D~'()*!").
Proof. reflexivity. Qed.

(** U+00E9, U+20AC and U+1F600 (a surrogate pair). *)
Example encodeURIComponent_utf8_ex :
  encodeURIComponent [0xE9; 0x20AC; 0xD83D; 0xDE00]%N =
  Some (lit "%C3%A9%E2%82%AC%F0%9F%98%80").
Proof. reflexivity. Qed.

Example encodeURIComponent_lone_surrogate_ex :
  encodeURIComponent [0xD800%N] = None.
Proof. reflexivity. Qed.

Lemma unreserved_not_surrogate (c : N) :
  uri_unreserved c = true ->
  is_trail_surrogate c = false /\ is_lead_surrogate c = false.
Proof.
  unfold uri_unreserved, is_trail_surrogate, is_lead_surrogate.
  rewrite !orb_true_iff, !andb_true_iff, !andb_false_iff, !N.leb_le,
    !N.eqb_eq, !N.leb_gt.
  lia.
Qed.

Lemma encodeURIComponent_defined_bounded (n : nat) (s : jsstring) :
  (List.length s <= n)%nat ->
  (isWellFormed s = true <-> exists enc, encodeURIComponent s = Some enc).
Proof.
  revert s. induction n as [|n IH]; intros s Hlen.
  - destruct s; [|simpl in Hlen; lia]. simpl. split; eauto.
  - destruct s as [|c s']; [simpl; split; eauto|].
    simpl in Hlen. simpl.
    destruct (uri_unreserved c) eqn:Eu.
    + destruct (unreserved_not_surrogate c Eu) as [-> ->].
      rewrite (IH s') by lia.
      split; intros [enc H].
      * rewrite H. simpl. eauto.
      * destruct (encodeURIComponent s'); [eauto | discriminate].
    + destruct (is_trail_surrogate c).
      { split; [discriminate | intros [? ?]; discriminate]. }
      destruct (is_lead_surrogate c).
      * destruct s' as [|d s''].
        { split; [discriminate | intros [? ?]; discriminate]. }
        simpl in Hlen.
        destruct (is_trail_surrogate d); simpl.
        -- rewrite (IH s'') by lia.
           split; intros [enc H].
           ++ rewrite H. simpl. eauto.
           ++ destruct (encodeURIComponent s''); [eauto | discriminate].
        -- split; [discriminate | intros [? ?]; discriminate].
      * rewrite (IH s') by lia.
        split; intros [enc H].
        -- rewrite H. simpl. eauto.
        -- destruct (encodeURIComponent s'); [eauto | discriminate].
Qed.

(** [encodeURIComponent] throws exactly on the strings with a lone
    surrogate. *)
Lemma encodeURIComponent_defined (s : jsstring) :
  isWellFormed s = true <-> exists enc, encodeURIComponent s = Some enc.
Proof. apply (encodeURIComponent_defined_bounded (List.length s)). lia. Qed.

Section Fetchers.

Variable srv : Server.

Lemma history_endpoint_20 :
  history_endpoint 20 = lit "http://localhost:8000/history?limit=20".
Proof. reflexivity. Qed.

Lemma history_by_url_endpoint_30 (encoded : jsstring) :
  history_by_url_endpoint encoded 30 =
  API_BASE ++ lit "/history_by_url?url=" ++ encoded ++ lit "&limit=30".
Proof. reflexivity. Qed.

(** C5. Every invocation of [fetchHistory] sends exactly one request, a GET
    of the cross-URL history endpoint with limit 20, and when that request
    is fulfilled the displayed history becomes exactly the returned
    sequence.  The same holds of the invocation that [handleCheck] does not
    await: the request goes out at once and the history is replaced when
    the fetcher resumes. *)
Theorem fetchHistory_limit_20_replaces_history (w : World) :
  log (world_of (fetchHistory srv w)) = log w ++ [HttpGet (history_endpoint 20)]
  /\ history_endpoint 20 = lit "http://localhost:8000/history?limit=20"
  /\ unawaited fetchHistory_begin w =
     Done tt (mkWorld (app w) (log w ++ [HttpGet (history_endpoint 20)])
                (detached w ++ [AwaitHistory (history_endpoint 20)]))
  /\ forall data,
       get_records srv (history_endpoint 20) = Fulfilled data ->
       fetchHistory srv w =
       Done tt (mkWorld (with_history data (app w))
                  (log w ++ [HttpGet (history_endpoint 20)]) (detached w))
       /\ history (app (world_of (fetchHistory srv w))) = data
       /\ forall w0, history
            (app (world_of (resume srv (AwaitHistory (history_endpoint 20)) w0)))
          = data.
Proof.
  unfold fetchHistory, completed, fetchHistory_begin, unawaited, resume, bind,
    emit, ret, await, setHistory, modify.
  change (API_BASE ++ lit "/history?limit=20") with (history_endpoint 20).
  cbn [app log detached].
  repeat split.
  - destruct (get_records srv (history_endpoint 20)); reflexivity.
  - rewrite H. reflexivity.
  - rewrite H. reflexivity.
  - intros w0. rewrite H. reflexivity.
Qed.

(** C6, as the code has it.  For every non-empty url that is well-formed
    UTF-16 (no lone surrogate), [fetchTrendData] sends exactly one request,
    a GET of the per-URL history endpoint with [encodeURIComponent(url)]
    and limit 30, and when that request is fulfilled the displayed trend
    data becomes exactly the returned sequence.  For the empty url it
    sends no request and changes nothing. *)
Theorem fetchTrendData_limit_30_replaces_trend (w : World) (u : jsstring) :
  (u <> [] -> isWellFormed u = true ->
   exists encoded,
     encodeURIComponent u = Some encoded
     /\ log (world_of (fetchTrendData srv u w))
        = log w ++ [HttpGet (history_by_url_endpoint encoded 30)]
     /\ forall data,
          get_records srv (history_by_url_endpoint encoded 30)
            = Fulfilled data ->
          fetchTrendData srv u w =
          Done tt (mkWorld (with_trendData data (app w))
                     (log w ++ [HttpGet (history_by_url_endpoint encoded 30)])
                     (detached w))
          /\ trendData (app (world_of (fetchTrendData srv u w))) = data)
  /\ fetchTrendData srv [] w = Done tt w.
Proof.
  split; [|reflexivity].
  intros Hne Hwf. apply encodeURIComponent_defined in Hwf.
  destruct Hwf as [encoded Henc]. exists encoded. split; [assumption|].
  unfold fetchTrendData, completed, fetchTrendData_begin.
  destruct u as [|c u']; [congruence|]. cbn [Boolean negb].
  rewrite Henc.
  rewrite <- history_by_url_endpoint_30.
  unfold resume, bind, emit, ret, await, setTrendData, modify.
  cbn [app log detached].
  split.
  - destruct (get_records srv (history_by_url_endpoint encoded 30));
      reflexivity.
  - intros data H. rewrite H. split; reflexivity.
Qed.

(** C9. Whenever the schedule-status request is rejected, [fetchStatus]
    completes with the displayed monitoring status equal to
    [{last_run: null, next_run: null, email_alerts: false}], the value it
    has at startup, whatever an earlier fetch had put there. *)
Theorem fetchStatus_failure_resets (w : World) e :
  get_status srv schedule_status_endpoint = Rejected e ->
  exists w',
    fetchStatus srv w = Done tt w'
    /\ monitorStatus (app w')
       = {| last_run := None; next_run := None; email_alerts := false |}
    /\ monitorStatus (app w') = monitorStatus initial_state
    /\ log w' = log w ++ [HttpGet schedule_status_endpoint].
Proof.
  intros H. unfold fetchStatus, try_catch, axios_get, bind, emit, await.
  change (API_BASE ++ lit "/schedule/status") with schedule_status_endpoint.
  rewrite H. eexists. split; [reflexivity|]. repeat split.
Qed.

Lemma fetchStatus_success_shows (w : World) data :
  get_status srv schedule_status_endpoint = Fulfilled data ->
  fetchStatus srv w =
  Done tt (mkWorld (with_monitorStatus data (app w))
             (log w ++ [HttpGet schedule_status_endpoint]) (detached w)).
Proof.
  intros H. unfold fetchStatus, try_catch, axios_get, bind, emit, await.
  change (API_BASE ++ lit "/schedule/status") with schedule_status_endpoint.
  rewrite H. reflexivity.
Qed.

End Fetchers.

(** ** The tables and the chart *)

Section Rendering.

Variable rt : Runtime.

Lemma truthy_false_iff (t : Q) : truthy t = false <-> t == 0.
Proof.
  unfold truthy. rewrite negb_false_iff. apply Qeq_bool_iff.
Qed.

Lemma show_Z_not_dash (z : Z) : show_Z z <> lit "-".
Proof.
  unfold show_Z. destruct (Z.to_int z) as [d|d]; simpl.
  - destruct d; simpl; discriminate.
  - destruct d; simpl; discriminate.
Qed.

(** The Status Code cell shows the code exactly when there is one. *)
Lemma status_code_cell_spec (row : CheckRecord) :
  (forall code, status_code row = Some code ->
                cell_status_code (render_row rt row) = show_Z code)
  /\ (status_code row = None <->
      cell_status_code (render_row rt row) = lit "-").
Proof.
  unfold render_row, status_code_cell. cbn [cell_status_code].
  destruct (status_code row) as [code|].
  - split.
    + now intros ? [= <-].
    + split; [discriminate|]. intros H. now apply show_Z_not_dash in H.
  - split; [discriminate | tauto].
Qed.

(** The Response Time cell goes by truthiness: a dash for an absent time
    and for a time of zero, two decimals for any other. *)
Lemma response_time_cell_spec (row : CheckRecord) :
  (response_time row = None ->
   cell_response_time (render_row rt row) = lit "-")
  /\ (forall t, response_time row = Some t -> ~ t == 0 ->
                cell_response_time (render_row rt row) = toFixed2 rt t)
  /\ (forall t, response_time row = Some t -> t == 0 ->
                cell_response_time (render_row rt row) = lit "-").
Proof.
  unfold render_row, response_time_cell. cbn [cell_response_time].
  destruct (response_time row) as [t0|].
  - split; [discriminate|]. split; intros t [= <-] H.
    + destruct (truthy t0) eqn:E; [reflexivity|].
      now apply truthy_false_iff in E.
    + apply truthy_false_iff in H. now rewrite H.
  - repeat split; discriminate.
Qed.

(** C7 at a record whose response took no measurable time.  The record
    has a response time, 0, which to two decimals is "0.00"; its cell in
    both tables is a dash, the text of an absent response time.  The Status
    Code cell next to it shows the code. *)
Theorem response_time_zero_renders_dash :
  response_time Sample.instant = Some 0
  /\ toFixed2 rt 0 = lit "0.00"
  /\ cell_response_time (render_row rt Sample.instant) = lit "-"
  /\ cell_response_time (render_row rt Sample.instant)
     = cell_response_time (render_row rt Sample.bad)
  /\ cell_response_time (render_row rt Sample.instant) <> toFixed2 rt 0
  /\ results_table rt (with_results [Sample.instant] initial_state)
     = history_table rt (with_history [Sample.instant] initial_state)
  /\ cell_status_code (render_row rt Sample.instant) = lit "200".
Proof.
  repeat split; try reflexivity. discriminate.
Qed.

(** C10. In the chart, the status value of every record of the trend data
    is 1 if its status is 'UP' and 0 if it is anything else; its
    response-time value is the recorded response time if there is one and
    0 if there is none.  So a record without a response time is plotted
    exactly like one that took no time at all. *)
Theorem chartData_points (s : AppState) (i : nat) (d : CheckRecord) :
  nth_error (trendData s) i = Some d ->
  exists v p,
    nth_error (status_series (chartData rt s)) i = Some v
    /\ nth_error (response_time_series (chartData rt s)) i = Some p
    /\ (status d = lit "UP" -> v = 1%Z)
    /\ (status d <> lit "UP" -> v = 0%Z)
    /\ (forall t, response_time d = Some t -> p == t)
    /\ (response_time d = None -> p = 0)
    /\ (response_time d = None ->
        forall d', response_time d' = Some 0 -> response_time_point d' = p).
Proof.
  intros Hd. exists (status_point d), (response_time_point d).
  unfold chartData. cbn [status_series response_time_series].
  split; [now apply map_nth_error|]. split; [now apply map_nth_error|].
  unfold status_point, response_time_point, jsstring_eqb.
  repeat split.
  - intros ->. reflexivity.
  - intros H. destruct (list_eq_dec N.eq_dec (status d) (lit "UP"));
      [contradiction | reflexivity].
  - intros t ->. destruct (truthy t) eqn:E; [reflexivity|].
    apply truthy_false_iff in E. now symmetry.
  - intros ->. reflexivity.
  - intros -> d' ->. reflexivity.
Qed.

Lemma chartData_lengths (s : AppState) :
  List.length (labels (chartData rt s)) = List.length (trendData s)
  /\ List.length (response_time_series (chartData rt s))
     = List.length (trendData s)
  /\ List.length (status_series (chartData rt s)) = List.length (trendData s).
Proof. unfold chartData; simpl. now rewrite !length_map. Qed.

End Rendering.

(** ** The Metrics Aggregator *)

Lemma divide_defined (a b : Q) : ~ b == 0 -> Aggregator.divide a b = Some (a / b).
Proof.
  intros H. unfold Aggregator.divide.
  destruct (Qeq_bool b 0) eqn:E; [|reflexivity].
  now apply Qeq_bool_iff in E.
Qed.

Lemma up_percent_of_defined (up total : nat) :
  exists p, Aggregator.up_percent_of up total = Some p
            /\ (total = 0%nat -> p = 0).
Proof.
  unfold Aggregator.up_percent_of.
  destruct total as [|n]; simpl Nat.eqb; cbv iota.
  - exists 0. split; reflexivity.
  - rewrite divide_defined.
    + eexists. split; [reflexivity | discriminate].
    + unfold Qeq. simpl. lia.
Qed.

Lemma summary_of_defined (store : list CheckRecord) (u : jsstring) :
  exists m, Aggregator.summary_of store u = Some m /\ Aggregator.consistent m.
Proof.
  unfold Aggregator.summary_of, Aggregator.consistent.
  set (rs := Aggregator.records_of store u).
  destruct (up_percent_of_defined
              (List.length (filter Aggregator.is_up rs)) (List.length rs))
    as (p & Hp & Hzero).
  rewrite Hp. eexists. split; [reflexivity|].
  cbn [up_count error_count total_checks up_percent error_rate].
  split; [|split].
  - pose proof (filter_length_le Aggregator.is_up rs). lia.
  - intros _. ring.
  - intros H. rewrite (Hzero H). reflexivity.
Qed.

Lemma all_or_fault_defined {A} (P : A -> Prop) (l : list (option A)) :
  Forall (fun o => exists a, o = Some a /\ P a) l ->
  exists l', Aggregator.all_or_fault l = Some l' /\ Forall P l'.
Proof.
  induction 1 as [|o l (a & -> & Ha) _ (l' & IH & Hl')]; simpl.
  - exists []. split; [reflexivity | constructor].
  - rewrite IH. simpl. exists (a :: l'). split; [reflexivity|].
    now constructor.
Qed.

(** C3. For every History Store and every URL the aggregator produces a
    summary, without a division fault, in which up_count + error_count =
    total_checks, up_percent + error_rate = 100 when total_checks > 0, and
    up_percent = 0 when total_checks = 0; and [summarize] produces its
    whole sequence without a fault, every entry of it being such a
    summary. *)
Theorem aggregator_summary_consistent (store : list CheckRecord) :
  (forall u,
     exists m,
       Aggregator.summary_of store u = Some m
       /\ (up_count m + error_count m = total_checks m)%nat
       /\ ((0 < total_checks m)%nat ->
           up_percent m + error_rate m == inject_Z 100)
       /\ (total_checks m = 0%nat -> up_percent m == 0))
  /\ exists ms,
       Aggregator.summarize store = Some ms
       /\ Forall
            (fun m =>
               (up_count m + error_count m = total_checks m)%nat
               /\ ((0 < total_checks m)%nat ->
                   up_percent m + error_rate m == inject_Z 100)
               /\ (total_checks m = 0%nat -> up_percent m == 0)) ms.
Proof.
  split.
  - intros u. apply summary_of_defined.
  - unfold Aggregator.summarize.
    apply (all_or_fault_defined Aggregator.consistent).
    apply Forall_forall. intros o Ho. apply in_map_iff in Ho.
    destruct Ho as (u & <- & _). apply summary_of_defined.
Qed.

Example summarize_ex :
  option_map (map (fun m => (total_checks m, up_count m, error_count m,
                             Qred (up_percent m), Qred (error_rate m))))
    (Aggregator.summarize [Sample.good; Sample.bad; Sample.instant])
  = Some [(1%nat, 0%nat, 1%nat, 0 # 1, 100 # 1);
          (2%nat, 2%nat, 0%nat, 100 # 1, 0 # 1)].
Proof. reflexivity. Qed.

Example summary_of_untracked_ex :
  option_map (fun m => (total_checks m, up_percent m))
    (Aggregator.summary_of [Sample.good] (lit "https://never.example"))
  = Some (0%nat, 0).
Proof. reflexivity. Qed.

(** ** The theorems at work on the sample page *)

Lemma handleCheck_blank_input_witness :
  Forall (fun line => trim line = [])
    (split_nl (urls (app (start Sample.blank))))
  /\ exists w',
       handleCheck Sample.rt Sample.up (start Sample.blank) = Done tt w'
       /\ log w' = [Alert (lit "Please enter at least one valid URL.")]
       /\ loading (app w') = false.
Proof.
  assert (H : Forall (fun line => trim line = [])
                (split_nl (urls (app (start Sample.blank)))))
    by (repeat constructor).
  split; [exact H|].
  destruct (handleCheck_blank_input Sample.rt Sample.up (start Sample.blank) H)
    as (w' & Hrun & Hlog & _ & _ & Hload & _).
  exists w'. repeat split; assumption.
Defined.

Lemma handleCheck_submits_trimmed_witness :
  In (HttpPost check_urls_endpoint
        [lit "https://good.example"; lit "https://bad.example"])
     (log (world_of (handleCheck Sample.rt Sample.up (start Sample.shown))))
  /\ Forall (fun u => u <> [] /\ trim u = u)
       [lit "https://good.example"; lit "https://bad.example"].
Proof.
  assert (H : In (HttpPost check_urls_endpoint
                    [lit "https://good.example"; lit "https://bad.example"])
                (log (world_of
                        (handleCheck Sample.rt Sample.up (start Sample.shown)))))
    by (left; reflexivity).
  split; [exact H|].
  destruct (handleCheck_submits_trimmed Sample.rt Sample.up Sample.shown _ _ H)
    as (_ & _ & Hall).
  eapply Forall_impl; [|exact Hall].
  intros u (Hne & Htrim & _). split; assumption.
Defined.

Lemma handleCheck_success_replaces_results_witness :
  results Sample.shown = [Sample.instant]
  /\ results (app (world_of
                     (handleCheck Sample.rt Sample.up (start Sample.shown))))
     = [Sample.good; Sample.bad].
Proof.
  split; [reflexivity|].
  destruct (handleCheck_success_replaces_results Sample.rt Sample.up
              (start Sample.shown) [Sample.good; Sample.bad])
    as (w' & Hrun & Hres & _).
  - discriminate.
  - reflexivity.
  - rewrite Hrun. exact Hres.
Defined.

Lemma handleCheck_failure_keeps_state_witness :
  let w' := world_of (handleCheck Sample.rt Sample.down (start Sample.shown)) in
  results (app w') = [Sample.instant]
  /\ history (app w') = [Sample.instant; Sample.bad]
  /\ loading (app w') = false
  /\ exists msg, In (Alert msg) (log w').
Proof.
  destruct (handleCheck_failure_keeps_state Sample.rt Sample.down
              (start Sample.shown) ErrRequest)
    as (w' & Hrun & Hres & Hhist & _ & _ & Hload & Hlog & _).
  - discriminate.
  - reflexivity.
  - cbv zeta. rewrite Hrun. cbn [world_of].
    rewrite Hres, Hhist, Hload, Hlog.
    repeat split. eexists. right. left. reflexivity.
Defined.

Lemma fetchHistory_limit_20_replaces_history_witness :
  history Sample.shown = [Sample.instant; Sample.bad]
  /\ history (app (world_of (fetchHistory Sample.up (start Sample.shown))))
     = [Sample.bad; Sample.good].
Proof.
  split; [reflexivity|].
  destruct (fetchHistory_limit_20_replaces_history Sample.up
              (start Sample.shown)) as (_ & _ & _ & H).
  destruct (H [Sample.bad; Sample.good] eq_refl) as (_ & Hhist & _).
  exact Hhist.
Defined.

Lemma fetchTrendData_limit_30_replaces_trend_witness :
  log (world_of (fetchTrendData Sample.up (lit "https://good.example")
                   (start Sample.shown)))
  = [HttpGet (lit "http://localhost:8000/history_by_url?url=https%3A%2F%2Fgood.example&limit=30")].
Proof.
  destruct (fetchTrendData_limit_30_replaces_trend Sample.up
              (start Sample.shown) (lit "https://good.example")) as [H _].
  destruct H as (encoded & Henc & Hlog & _).
  - discriminate.
  - reflexivity.
  - vm_compute in Henc. injection Henc as <-. exact Hlog.
Defined.

Lemma fetchStatus_failure_resets_witness :
  monitorStatus Sample.shown = Sample.busy_status
  /\ monitorStatus
       (app (world_of (fetchStatus Sample.down (start Sample.shown))))
     = initial_monitorStatus.
Proof.
  split; [reflexivity|].
  destruct (fetchStatus_failure_resets Sample.down (start Sample.shown)
              ErrRequest eq_refl) as (w' & Hrun & Hstatus & _).
  rewrite Hrun. exact Hstatus.
Defined.

Lemma chartData_points_witness :
  nth_error (trendData Sample.shown) 0 = Some Sample.bad
  /\ nth_error (status_series (chartData Sample.rt Sample.shown)) 0
     = Some 0%Z
  /\ nth_error (response_time_series (chartData Sample.rt Sample.shown)) 0
     = Some 0.
Proof.
  split; [reflexivity|].
  destruct (chartData_points Sample.rt Sample.shown 0 Sample.bad eq_refl)
    as (v & p & Hv & Hp & _ & Hdown & _ & Hnone & _).
  rewrite Hv, Hp, Hdown, (Hnone eq_refl); [split; reflexivity | discriminate].
Defined.

Lemma aggregator_summary_consistent_witness :
  exists m,
    Aggregator.summary_of [Sample.good; Sample.bad; Sample.instant]
      (lit "https://good.example") = Some m
    /\ (0 < total_checks m)%nat
    /\ up_percent m + error_rate m == inject_Z 100.
Proof.
  destruct (aggregator_summary_consistent
              [Sample.good; Sample.bad; Sample.instant]) as [H _].
  destruct (H (lit "https://good.example")) as (m & Hm & _ & Hpos & _).
  assert (Htotal : (0 < total_checks m)%nat).
  { vm_compute in Hm. injection Hm as <-. simpl. lia. }
  exists m. split; [exact Hm|]. split; [exact Htotal | exact (Hpos Htotal)].
Defined.

(** C6 as stated fails at a url that is a lone surrogate: the string is not
    empty, [encodeURIComponent] throws and no request goes out. *)
Lemma fetchTrendData_lone_surrogate_counterexample :
  fetchTrendData Sample.up [0xD800%N] (start initial_state)
  = Thrown URIError (start initial_state)
  /\ ~ (forall (srv : Server) (w : World) (u : jsstring),
          u <> [] ->
          exists encoded,
            In (HttpGet (history_by_url_endpoint encoded 30))
               (log (world_of (fetchTrendData srv u w)))).
Proof.
  split; [reflexivity|].
  intros H.
  destruct (H Sample.up (start initial_state) [0xD800%N]) as (encoded & Hin).
  - discriminate.
  - exact Hin.
Qed.

(* ===================================================================== *)
(** * More of the page *)
(* ===================================================================== *)

(** ** The text field: lines, white space, the submitted list *)

Lemma trimStart_nil_iff (s : jsstring) :
  trimStart s = [] <-> forallb is_white_space s = true.
Proof.
  induction s as [|c s IH]; simpl; [tauto|].
  destruct (is_white_space c); simpl; [exact IH|].
  split; discriminate.
Qed.

Lemma forallb_rev {A} (f : A -> bool) (l : list A) :
  forallb f (rev l) = forallb f l.
Proof.
  induction l as [|a l IH]; simpl; [reflexivity|].
  rewrite forallb_app, IH. simpl. rewrite andb_true_r. apply andb_comm.
Qed.

(** A string trims to nothing exactly when it is all white space. *)
Lemma trim_nil_iff (s : jsstring) :
  trim s = [] <-> forallb is_white_space s = true.
Proof.
  split.
  - intros H. unfold trim, trimEnd in H.
    apply (f_equal (@rev N)) in H. rewrite rev_involutive in H. simpl in H.
    apply trimStart_nil_iff in H. rewrite forallb_rev in H.
    pose proof (trimStart_clean s) as Hc.
    apply trimStart_nil_iff.
    destruct (trimStart s) as [|c t]; [reflexivity|].
    inversion Hc as [|? ? Hws]; subst. simpl in H. now rewrite Hws in H.
  - intros H. apply trimStart_nil_iff in H. unfold trim. now rewrite H.
Qed.

Lemma split_nl_white_space (s : jsstring) :
  Forall (fun line => trim line = []) (split_nl s)
  <-> forallb is_white_space s = true.
Proof.
  induction s as [|c s IH]; simpl.
  - split; [reflexivity | now repeat constructor].
  - destruct (c =? 10)%N eqn:E.
    + apply N.eqb_eq in E. subst c. simpl. rewrite <- IH. split.
      * now inversion 1.
      * now constructor.
    + pose proof (split_nl_nonempty s) as Hne.
      destruct (split_nl s) as [|l ls]; [congruence|].
      rewrite andb_true_iff, <- IH. split.
      * inversion 1 as [|? ? Hl Hls]; subst.
        apply trim_nil_iff in Hl. simpl in Hl.
        apply andb_true_iff in Hl. destruct Hl as [Hc Hl].
        split; [assumption|]. constructor; [|assumption].
        now apply trim_nil_iff.
      * intros [Hc Hall]. inversion Hall as [|? ? Hl Hls]; subst.
        constructor; [|assumption].
        apply trim_nil_iff. simpl. rewrite Hc. now apply trim_nil_iff.
Qed.

Lemma join_split_nl (s : jsstring) : join_nl (split_nl s) = s.
Proof.
  induction s as [|c s IH]; simpl; [reflexivity|].
  pose proof (split_nl_nonempty s) as Hne.
  destruct (c =? 10)%N eqn:E.
  - apply N.eqb_eq in E. subst c.
    destruct (split_nl s) as [|l ls]; [congruence|].
    simpl in *. now rewrite IH.
  - destruct (split_nl s) as [|l ls]; [congruence|].
    destruct ls as [|l' ls']; simpl in *; now rewrite IH.
Qed.

Lemma split_nl_line (p : jsstring) :
  has_line_feed p = false -> split_nl p = [p].
Proof.
  induction p as [|c p IH]; simpl; [reflexivity|].
  intros H. apply orb_false_iff in H. destruct H as [Hc Hp].
  rewrite Hc, (IH Hp). reflexivity.
Qed.

Lemma split_nl_app_line (p rest : jsstring) :
  has_line_feed p = false ->
  split_nl (p ++ LF ++ rest) = p :: split_nl rest.
Proof.
  unfold LF. induction p as [|c p IH]; simpl in *; [reflexivity|].
  intros H. apply orb_false_iff in H. destruct H as [Hc Hp].
  rewrite Hc, (IH Hp). reflexivity.
Qed.

Lemma split_join_nl (pieces : list jsstring) :
  pieces <> [] ->
  Forall (fun p => has_line_feed p = false) pieces ->
  split_nl (join_nl pieces) = pieces.
Proof.
  induction pieces as [|p ps IH]; [congruence|].
  intros _ Hall. inversion Hall as [|? ? Hp Hps]; subst.
  destruct ps as [|q qs].
  - simpl. now apply split_nl_line.
  - change (join_nl (p :: q :: qs)) with (p ++ LF ++ join_nl (q :: qs)).
    rewrite (split_nl_app_line p _ Hp), IH; [reflexivity | discriminate | assumption].
Qed.

Lemma split_nl_no_line_feed (s : jsstring) :
  Forall (fun p => has_line_feed p = false) (split_nl s).
Proof.
  induction s as [|c s IH]; simpl; [now repeat constructor|].
  destruct (c =? 10)%N eqn:E.
  - now constructor.
  - pose proof (split_nl_nonempty s) as Hne.
    destruct (split_nl s) as [|l ls]; [congruence|].
    inversion IH; subst. constructor; [|assumption].
    simpl. now rewrite E.
Qed.

Lemma has_line_feed_rev (s : jsstring) :
  has_line_feed (rev s) = has_line_feed s.
Proof.
  unfold has_line_feed. induction s as [|c s IH]; simpl; [reflexivity|].
  rewrite existsb_app, IH. simpl. rewrite orb_false_r. apply orb_comm.
Qed.

Lemma trimStart_no_line_feed (s : jsstring) :
  has_line_feed s = false -> has_line_feed (trimStart s) = false.
Proof.
  induction s as [|c s IH]; simpl; [reflexivity|].
  intros H. destruct (is_white_space c); [|exact H].
  apply orb_false_iff in H. now apply IH.
Qed.

Lemma trim_no_line_feed (s : jsstring) :
  has_line_feed s = false -> has_line_feed (trim s) = false.
Proof.
  intros H. unfold trim, trimEnd.
  rewrite has_line_feed_rev. apply trimStart_no_line_feed.
  rewrite has_line_feed_rev. now apply trimStart_no_line_feed.
Qed.

Lemma urlList_of_fixed (l : list jsstring) :
  Forall (fun u => u <> [] /\ trim u = u) l ->
  filter Boolean (map trim l) = l.
Proof.
  induction 1 as [|u l [Hne Htrim] _ IH]; simpl; [reflexivity|].
  rewrite Htrim, IH. destruct u; [congruence | reflexivity].
Qed.

(** X1. Cleaning is stable: the list [handleCheck] makes out of a text is
    the list it makes out of that list put back one url per line, and none
    of its urls contains a line feed. *)
Theorem urlList_of_join_stable (text : jsstring) :
  urlList_of (join_nl (urlList_of text)) = urlList_of text
  /\ Forall (fun u => has_line_feed u = false) (urlList_of text).
Proof.
  assert (Hlf : Forall (fun u => has_line_feed u = false) (urlList_of text)).
  { apply Forall_forall. intros u Hu. apply urlList_of_spec in Hu.
    destruct Hu as (line & Hin & -> & _). apply trim_no_line_feed.
    pose proof (split_nl_no_line_feed text) as H.
    rewrite Forall_forall in H. now apply H. }
  split; [|exact Hlf].
  destruct (urlList_of text) as [|u us] eqn:E; [reflexivity|].
  unfold urlList_of at 1. rewrite split_join_nl; [|discriminate|assumption].
  rewrite <- E. apply urlList_of_fixed.
  apply Forall_forall. intros v Hv. apply urlList_of_spec in Hv.
  destruct Hv as (line & _ & -> & Hne). split; [assumption | apply trim_idem].
Qed.

(** Splitting loses nothing: rejoining the lines of a text with line
    feeds gives the text back, and no line contains a line feed. *)
Lemma split_nl_join_round_trip (text : jsstring) :
  join_nl (split_nl text) = text
  /\ Forall (fun line => has_line_feed line = false) (split_nl text).
Proof. split; [apply join_split_nl | apply split_nl_no_line_feed]. Qed.

Lemma urlList_of_white_space (text : jsstring) :
  urlList_of text = [] <-> forallb is_white_space text = true.
Proof. rewrite <- urlList_of_blank. apply split_nl_white_space. Qed.

(** ** [handleCheck], whatever happens *)

Section HandleCheckMore.

Variable rt : Runtime.
Variable srv : Server.

(** X2. [handleCheck] posts to the check endpoint exactly when the text
    field holds at least one character that is not white space; a text of
    spaces, tabs, line breaks and the like is never sent. *)
Theorem handleCheck_posts_iff_not_blank (s : AppState) :
  (exists target body,
     In (HttpPost target body)
        (log (world_of (handleCheck rt srv (start s)))))
  <-> forallb is_white_space (urls s) = false.
Proof.
  rewrite handleCheck_runs. cbn [world_of start app log detached]. cbv zeta.
  rewrite <- not_true_iff_false, <- urlList_of_white_space.
  destruct (urlList_of (urls s)) as [|u us].
  - split; [|congruence]. intros (target & body & [H|[]]). discriminate.
  - split; [discriminate|]. intros _.
    exists check_urls_endpoint, (u :: us).
    destruct (post_records srv check_urls_endpoint (u :: us));
      left; reflexivity.
Qed.

(** X3. Whatever the text and whatever the server does, [handleCheck]
    completes without throwing, with the loading flag false (the button is
    enabled again), and it has written nothing but results and loading:
    the text, the history, the metrics, the selection, the trend data, the
    monitoring status and the other flags are as they were. *)
Theorem handleCheck_always_completes (w : World) :
  exists w',
    handleCheck rt srv w = Done tt w'
    /\ loading (app w') = false
    /\ check_button_disabled (app w') = false
    /\ urls (app w') = urls (app w)
    /\ history (app w') = history (app w)
    /\ metrics (app w') = metrics (app w)
    /\ showHistory (app w') = showHistory (app w)
    /\ selectedUrl (app w') = selectedUrl (app w)
    /\ trendData (app w') = trendData (app w)
    /\ monitorStatus (app w') = monitorStatus (app w)
    /\ manualCheckLoading (app w') = manualCheckLoading (app w).
Proof.
  eexists. split; [apply handleCheck_runs|]. cbv zeta.
  destruct (urlList_of (urls (app w))) as [|u us].
  - repeat split.
  - destruct (post_records srv check_urls_endpoint (u :: us)); repeat split.
Qed.

(** X4. [handleCheck] sends at most one POST, and it fetches history and
    metrics only after that POST was fulfilled: a GET that it sends is one
    of those two, and then the check had succeeded. *)
Theorem handleCheck_refetches_only_after_success (s : AppState) target :
  In (HttpGet target) (log (world_of (handleCheck rt srv (start s)))) ->
  (target = history_endpoint 20 \/ target = metrics_endpoint)
  /\ exists data,
       post_records srv check_urls_endpoint (urlList_of (urls s))
       = Fulfilled data
       /\ log (world_of (handleCheck rt srv (start s)))
          = [HttpPost check_urls_endpoint (urlList_of (urls s));
             HttpGet (history_endpoint 20); HttpGet metrics_endpoint].
Proof.
  rewrite handleCheck_runs. cbn [world_of start app log detached]. cbv zeta.
  destruct (urlList_of (urls s)) as [|u us].
  - intros [H|[]]. discriminate.
  - destruct (post_records srv check_urls_endpoint (u :: us)) as [data|e];
      cbn [log app].
    + intros [H|[H|[H|[]]]]; try discriminate;
        injection H as <-; (split; [auto | exists data; split; reflexivity]).
    + intros [H|[H|[]]]; discriminate.
Qed.

(** X5. After a successful check, once the two detached fetchers have
    settled: the results are the records of the check; the history is what
    the history request returned if it was fulfilled and is unchanged if it
    was rejected; the same for the metrics, each independently of the
    other. *)
Theorem handleCheck_success_then_settled (s : AppState) data :
  urlList_of (urls s) <> [] ->
  post_records srv check_urls_endpoint (urlList_of (urls s)) = Fulfilled data ->
  let w' := settle_detached srv (world_of (handleCheck rt srv (start s))) in
  results (app w') = data
  /\ history (app w')
     = match get_records srv (history_endpoint 20) with
       | Fulfilled h => h
       | Rejected _ => history s
       end
  /\ metrics (app w')
     = match get_metrics srv metrics_endpoint with
       | Fulfilled m => m
       | Rejected _ => metrics s
       end
  /\ loading (app w') = false
  /\ detached w' = [].
Proof.
  intros Hne Hpost. rewrite handleCheck_runs.
  cbn [world_of start app log detached]. cbv zeta.
  destruct (urlList_of (urls s)) as [|u us]; [congruence|].
  rewrite Hpost. unfold settle_detached.
  cbn [app log detached List.app settle_all resume].
  unfold bind, await, setHistory, setMetrics, modify.
  destruct (get_records srv (history_endpoint 20)) as [h|e1];
    destruct (get_metrics srv metrics_endpoint) as [m|e2];
    repeat split.
Qed.

End HandleCheckMore.

(** ** The fetchers and the effects that call them *)

Lemma jsstring_eqb_eq (a b : jsstring) : jsstring_eqb a b = true <-> a = b.
Proof.
  unfold jsstring_eqb. destruct (list_eq_dec N.eq_dec a b); split;
    congruence.
Qed.

Lemma encodeURIComponent_throws (u : jsstring) :
  isWellFormed u = false <-> encodeURIComponent u = None.
Proof.
  pose proof (encodeURIComponent_defined u) as H. split.
  - intros Hf. destruct (encodeURIComponent u) as [enc|]; [|reflexivity].
    assert (isWellFormed u = true) by (apply H; now exists enc).
    congruence.
  - intros Hn. destruct (isWellFormed u); [|reflexivity].
    destruct (proj1 H eq_refl) as [enc Henc]. congruence.
Qed.

Section FetchersMore.

Variable srv : Server.

(** X6. Every invocation of [fetchMetrics] sends exactly one request, a
    GET of the metrics endpoint.  If it is fulfilled the displayed metrics
    become the returned rows; if it is rejected the function throws that
    error and the page keeps the metrics it had. *)
Theorem fetchMetrics_replaces_metrics (w : World) :
  log (world_of (fetchMetrics srv w)) = log w ++ [HttpGet metrics_endpoint]
  /\ metrics_endpoint = lit "http://localhost:8000/metrics"
  /\ (forall data,
        get_metrics srv metrics_endpoint = Fulfilled data ->
        fetchMetrics srv w =
        Done tt (mkWorld (with_metrics data (app w))
                   (log w ++ [HttpGet metrics_endpoint]) (detached w)))
  /\ (forall e,
        get_metrics srv metrics_endpoint = Rejected e ->
        fetchMetrics srv w =
        Thrown e (mkWorld (app w) (log w ++ [HttpGet metrics_endpoint])
                    (detached w))).
Proof.
  unfold fetchMetrics, completed, fetchMetrics_begin, resume, bind, emit, ret,
    await, setMetrics, modify, throw.
  change (API_BASE ++ lit "/metrics") with metrics_endpoint.
  cbn [app log detached].
  repeat split.
  - destruct (get_metrics srv metrics_endpoint); reflexivity.
  - intros data H. rewrite H. reflexivity.
  - intros e H. rewrite H. reflexivity.
Qed.

(** X7. A history or trend fetch that fails changes nothing on the page:
    when the request is rejected the fetcher throws that error with the
    state as it was, and [fetchTrendData] on a url with a lone surrogate
    throws before any request is sent. *)
Theorem fetchers_rejected_keep_state (w : World) :
  (forall e,
     get_records srv (history_endpoint 20) = Rejected e ->
     fetchHistory srv w =
     Thrown e (mkWorld (app w) (log w ++ [HttpGet (history_endpoint 20)])
                 (detached w)))
  /\ (forall u encoded e,
        u <> [] ->
        encodeURIComponent u = Some encoded ->
        get_records srv (history_by_url_endpoint encoded 30) = Rejected e ->
        fetchTrendData srv u w =
        Thrown e (mkWorld (app w)
                    (log w ++ [HttpGet (history_by_url_endpoint encoded 30)])
                    (detached w)))
  /\ (forall u, isWellFormed u = false ->
                fetchTrendData srv u w = Thrown URIError w).
Proof.
  split; [|split].
  - intros e H.
    unfold fetchHistory, completed, fetchHistory_begin, resume, bind, emit,
      ret, await, throw.
    change (API_BASE ++ lit "/history?limit=20") with (history_endpoint 20).
    rewrite H. reflexivity.
  - intros u encoded e Hne Henc H.
    unfold fetchTrendData, completed, fetchTrendData_begin.
    destruct u as [|c u']; [congruence|]. cbn [Boolean negb].
    rewrite Henc, <- history_by_url_endpoint_30.
    unfold resume, bind, emit, ret, await, throw. rewrite H. reflexivity.
  - intros u Hwf. pose proof Hwf as Henc.
    apply encodeURIComponent_throws in Henc.
    unfold fetchTrendData, completed, fetchTrendData_begin.
    destruct u as [|c u']; [discriminate|]. cbn [Boolean negb].
    rewrite Henc. reflexivity.
Qed.

(** X8. When the page mounts it sends the history request and then the
    metrics request, awaiting neither and changing nothing yet; once both
    have settled, the history and the metrics are each what its request
    returned, or what they were if its request was rejected, and nothing
    else has changed. *)
Theorem mount_effect_fetches_both (s : AppState) :
  exists w',
    mount_effect (start s) = Done tt w'
    /\ app w' = s
    /\ log w' = [HttpGet (history_endpoint 20); HttpGet metrics_endpoint]
    /\ app (settle_detached srv w')
       = with_metrics
           match get_metrics srv metrics_endpoint with
           | Fulfilled m => m
           | Rejected _ => metrics s
           end
           (with_history
              match get_records srv (history_endpoint 20) with
              | Fulfilled h => h
              | Rejected _ => history s
              end s).
Proof.
  unfold mount_effect, unawaited, fetchHistory_begin, fetchMetrics_begin,
    bind, emit, ret, start. cbn [app log detached List.app].
  change (API_BASE ++ lit "/history?limit=20") with (history_endpoint 20).
  change (API_BASE ++ lit "/metrics") with metrics_endpoint.
  eexists. split; [reflexivity|]. cbn [app log detached].
  split; [reflexivity|]. split; [reflexivity|].
  unfold settle_detached. cbn [app log detached List.app settle_all resume].
  unfold bind, await, setHistory, setMetrics, modify.
  destruct s.
  destruct (get_records srv (history_endpoint 20)) as [h|e1];
    destruct (get_metrics srv metrics_endpoint) as [m|e2]; reflexivity.
Qed.

(** X9. Choosing another, non-empty and well-formed url in the metrics
    table selects it at once and sends one trend request for it.  When the
    request has settled the selection is the new url; the trend data are
    the returned records if it was fulfilled, and still those of the
    previous selection if it was rejected. *)
Theorem select_url_fetches_trend (s : AppState) (u : jsstring) :
  u <> [] -> isWellFormed u = true -> selectedUrl s <> u ->
  exists encoded w',
    encodeURIComponent u = Some encoded
    /\ select_url u (start s) = Done tt w'
    /\ selectedUrl (app w') = u
    /\ trendData (app w') = trendData s
    /\ log w' = [HttpGet (history_by_url_endpoint encoded 30)]
    /\ selectedUrl (app (settle_detached srv w')) = u
    /\ trendData (app (settle_detached srv w'))
       = match get_records srv (history_by_url_endpoint encoded 30) with
         | Fulfilled d => d
         | Rejected _ => trendData s
         end.
Proof.
  intros Hne Hwf Hnew. apply encodeURIComponent_defined in Hwf.
  destruct Hwf as [encoded Henc]. exists encoded.
  unfold select_url, bind, gets, setSelectedUrl, modify, unawaited,
    fetchTrendData_begin. cbn [app log detached start].
  destruct (jsstring_eqb (selectedUrl s) u) eqn:E;
    [apply jsstring_eqb_eq in E; congruence|].
  destruct u as [|c u']; [congruence|]. cbn [Boolean negb].
  rewrite Henc, <- history_by_url_endpoint_30.
  unfold bind, emit, ret. cbn [app log detached List.app].
  eexists. split; [reflexivity|]. split; [reflexivity|].
  cbn [app log detached]. split; [reflexivity|]. split; [reflexivity|].
  split; [reflexivity|].
  unfold settle_detached. cbn [app log detached settle_all resume].
  unfold bind, await, setTrendData, modify.
  destruct (get_records srv (history_by_url_endpoint encoded 30));
    split; reflexivity.
Qed.

(** X10. Choosing the url that is already selected sends nothing, and so
    does choosing a url with a lone surrogate, which is selected all the
    same; in neither case does anything else on the page change. *)
Theorem select_url_without_request (s : AppState) (u : jsstring) :
  selectedUrl s = u \/ isWellFormed u = false ->
  select_url u (start s) = Done tt (start (with_selectedUrl u s)).
Proof.
  intros H.
  unfold select_url, bind, gets, setSelectedUrl, modify, unawaited,
    fetchTrendData_begin. cbn [app log detached start].
  destruct (jsstring_eqb (selectedUrl s) u) eqn:E; [reflexivity|].
  destruct H as [H|H].
  - apply jsstring_eqb_eq in H. congruence.
  - pose proof H as Henc. apply encodeURIComponent_throws in Henc.
    destruct u as [|c u']; [discriminate|]. cbn [Boolean negb].
    rewrite Henc. reflexivity.
Qed.

(** X11. [fetchStatus] never throws: it sends one GET of the schedule
    status endpoint and completes with the monitoring status the server
    returned, or with the startup value if the request was rejected, and
    with the rest of the page untouched. *)
Theorem fetchStatus_always_completes (w : World) :
  fetchStatus srv w =
  Done tt
    (mkWorld
       (with_monitorStatus
          match get_status srv schedule_status_endpoint with
          | Fulfilled data => data
          | Rejected _ => initial_monitorStatus
          end (app w))
       (log w ++ [HttpGet schedule_status_endpoint]) (detached w)).
Proof.
  unfold fetchStatus, try_catch, axios_get, bind, emit, await.
  change (API_BASE ++ lit "/schedule/status") with schedule_status_endpoint.
  destruct (get_status srv schedule_status_endpoint); reflexivity.
Qed.

End FetchersMore.

(** ** [encodeURIComponent] *)

Lemma lor_lt_256 (a b : N) : (a < 256 -> b < 256 -> N.lor a b < 256)%N.
Proof.
  intros Ha Hb.
  assert (Hlog : forall x : N, (x < 256 -> N.log2 x < 8)%N).
  { intros x Hx. destruct (N.eq_dec x 0) as [->|Hnz]; [reflexivity|].
    apply (N.log2_lt_pow2 x 8); [lia | exact Hx]. }
  destruct (N.eq_dec (N.lor a b) 0) as [->|Hnz]; [reflexivity|].
  apply (N.log2_lt_pow2 _ 8); [lia|].
  rewrite N.log2_lor. apply N.max_lub_lt; auto.
Qed.

Lemma shiftr_lt (a n q : N) : (a < 2 ^ n * q -> N.shiftr a n < q)%N.
Proof.
  intros H. rewrite N.shiftr_div_pow2. now apply N.Div0.div_lt_upper_bound.
Qed.

Lemma land_63_lt (a : N) : (N.land a 0x3F < 256)%N.
Proof. pose proof (N.land_le_r a 0x3F). lia. Qed.

Lemma utf8_octets_bytes (cp : N) :
  (cp < 0x110000)%N -> Forall (fun o => o < 256)%N (utf8_octets cp).
Proof.
  intros Hcp. unfold utf8_octets.
  destruct (N.ltb_spec cp 0x80); [repeat constructor; lia|].
  destruct (N.ltb_spec cp 0x800).
  { repeat constructor; apply lor_lt_256; try apply land_63_lt; try lia.
    pose proof (shiftr_lt cp 6 32). lia. }
  destruct (N.ltb_spec cp 0x10000).
  { repeat constructor; apply lor_lt_256; try apply land_63_lt; try lia.
    pose proof (shiftr_lt cp 12 16). lia. }
  repeat constructor; apply lor_lt_256; try apply land_63_lt; try lia.
  pose proof (shiftr_lt cp 18 5). lia.
Qed.

Lemma hex_digit_upper (n : N) : (n < 16)%N -> is_hex_upper (hex_digit n) = true.
Proof.
  intros Hn. unfold is_hex_upper, hex_digit.
  destruct (N.ltb_spec n 10);
    rewrite orb_true_iff, !andb_true_iff, !N.leb_le; lia.
Qed.

Lemma percent_octet_safe (o : N) :
  (o < 256)%N -> forallb uri_safe (percent_octet o) = true.
Proof.
  intros Ho. unfold percent_octet. cbn [forallb].
  assert (H1 : is_hex_upper (hex_digit (N.shiftr o 4)) = true).
  { apply hex_digit_upper. apply (shiftr_lt o 4 16). lia. }
  assert (H2 : is_hex_upper (hex_digit (N.land o 0xF)) = true).
  { apply hex_digit_upper. pose proof (N.land_le_r o 0xF). lia. }
  unfold uri_safe at 2 3. rewrite H1, H2, !orb_true_r. reflexivity.
Qed.

Lemma percent_encode_safe (cp : N) :
  (cp < 0x110000)%N -> forallb uri_safe (percent_encode cp) = true.
Proof.
  intros Hcp. unfold percent_encode.
  pose proof (utf8_octets_bytes cp Hcp) as H.
  induction H as [|o os Ho _ IH]; [reflexivity|].
  cbn [flat_map]. rewrite forallb_app, IH, (percent_octet_safe o Ho).
  reflexivity.
Qed.

Lemma surrogate_pair_lt (c d : N) :
  is_lead_surrogate c = true -> is_trail_surrogate d = true ->
  ((c - 0xD800) * 0x400 + (d - 0xDC00) + 0x10000 < 0x110000)%N.
Proof.
  unfold is_lead_surrogate, is_trail_surrogate.
  rewrite !andb_true_iff, !N.leb_le. lia.
Qed.

Lemma encodeURIComponent_safe_bounded (n : nat) (s e : jsstring) :
  (List.length s <= n)%nat ->
  forallb is_code_unit s = true ->
  encodeURIComponent s = Some e ->
  forallb uri_safe e = true.
Proof.
  revert s e. induction n as [|n IH]; intros s e Hlen Hcu Henc.
  - destruct s; [|simpl in Hlen; lia]. now injection Henc as <-.
  - destruct s as [|c s']; [now injection Henc as <-|].
    simpl in Hlen, Hcu, Henc. apply andb_true_iff in Hcu.
    destruct Hcu as [Hc Hs'].
    destruct (uri_unreserved c) eqn:Eu.
    { destruct (encodeURIComponent s') as [e'|] eqn:E'; [|discriminate].
      injection Henc as <-. simpl. unfold uri_safe at 1. rewrite Eu. simpl.
      apply (IH s'); [lia | assumption | assumption]. }
    destruct (is_trail_surrogate c); [discriminate|].
    destruct (is_lead_surrogate c) eqn:El.
    + destruct s' as [|d s'']; [discriminate|].
      destruct (is_trail_surrogate d) eqn:Et; [|discriminate].
      simpl in Hlen, Hs'. apply andb_true_iff in Hs'.
      destruct (encodeURIComponent s'') as [e''|] eqn:E''; [|discriminate].
      injection Henc as <-. rewrite forallb_app.
      rewrite (percent_encode_safe _ (surrogate_pair_lt c d El Et)).
      apply (IH s''); [lia | tauto | assumption].
    + destruct (encodeURIComponent s') as [e'|] eqn:E'; [|discriminate].
      injection Henc as <-. rewrite forallb_app.
      rewrite percent_encode_safe.
      * apply (IH s'); [lia | assumption | assumption].
      * unfold is_code_unit in Hc. apply N.ltb_lt in Hc. lia.
Qed.

(** X12. What [encodeURIComponent] returns for a string of 16-bit code
    units consists of unreserved characters, percent signs and upper-case
    hexadecimal digits only; so it contains no [&], [=], [?], [#], [/],
    [+] or space, and the url put into the query of the trend request
    cannot end the parameter or add another one. *)
Theorem encodeURIComponent_safe (s e : jsstring) :
  forallb is_code_unit s = true ->
  encodeURIComponent s = Some e ->
  forallb uri_safe e = true
  /\ forall c, In c e ->
       c <> 0x26%N /\ c <> 0x3D%N /\ c <> 0x3F%N /\ c <> 0x23%N
       /\ c <> 0x2F%N /\ c <> 0x2B%N /\ c <> 0x20%N.
Proof.
  intros Hcu Henc.
  assert (H : forallb uri_safe e = true)
    by (apply (encodeURIComponent_safe_bounded (List.length s) s e
                 (Nat.le_refl _)); assumption).
  split; [exact H|].
  intros c Hc. rewrite forallb_forall in H. specialize (H c Hc).
  repeat split; intros ->; discriminate.
Qed.

Lemma encodeURIComponent_app_bounded (n : nat) (a ea b : jsstring) :
  (List.length a <= n)%nat ->
  encodeURIComponent a = Some ea ->
  encodeURIComponent (a ++ b) = option_map (List.app ea) (encodeURIComponent b).
Proof.
  revert a ea. induction n as [|n IH]; intros a ea Hlen Ha.
  - destruct a; [|simpl in Hlen; lia]. injection Ha as <-. simpl.
    now destruct (encodeURIComponent b).
  - destruct a as [|c a'].
    { injection Ha as <-. simpl. now destruct (encodeURIComponent b). }
    simpl in Hlen, Ha. cbn [List.app encodeURIComponent].
    destruct (uri_unreserved c).
    { destruct (encodeURIComponent a') as [ea'|] eqn:E'; [|discriminate].
      injection Ha as <-. rewrite (IH a' ea') by (lia || assumption).
      now destruct (encodeURIComponent b). }
    destruct (is_trail_surrogate c); [discriminate|].
    destruct (is_lead_surrogate c).
    + destruct a' as [|d a'']; [discriminate|]. cbn [List.app].
      destruct (is_trail_surrogate d); [|discriminate].
      simpl in Hlen.
      destruct (encodeURIComponent a'') as [ea''|] eqn:E''; [|discriminate].
      injection Ha as <-. rewrite (IH a'' ea'') by (lia || assumption).
      destruct (encodeURIComponent b); simpl; [|reflexivity].
      now rewrite app_assoc.
    + destruct (encodeURIComponent a') as [ea'|] eqn:E'; [|discriminate].
      injection Ha as <-. rewrite (IH a' ea') by (lia || assumption).
      destruct (encodeURIComponent b); simpl; [|reflexivity].
      now rewrite app_assoc.
Qed.

(** X13. Encoding goes piece by piece: when the first part of a string can
    be encoded, the encoding of the whole is the encoding of that part
    followed by the encoding of the rest, and it throws exactly if the
    rest does. *)
Theorem encodeURIComponent_app (a ea b : jsstring) :
  encodeURIComponent a = Some ea ->
  encodeURIComponent (a ++ b)
  = match encodeURIComponent b with
    | Some eb => Some (ea ++ eb)
    | None => None
    end.
Proof.
  intros Ha.
  rewrite (encodeURIComponent_app_bounded (List.length a) a ea b
             (Nat.le_refl _) Ha).
  now destruct (encodeURIComponent b).
Qed.

Lemma encodeURIComponent_unreserved (s : jsstring) :
  forallb uri_unreserved s = true -> encodeURIComponent s = Some s.
Proof.
  induction s as [|c s IH]; simpl; [reflexivity|].
  intros H. apply andb_true_iff in H. destruct H as [Hc Hs].
  now rewrite Hc, (IH Hs).
Qed.

(** ** What the tables show *)

Lemma NilEmpty_digits (d : Decimal.uint) :
  forallb is_digit (lit (NilEmpty.string_of_uint d)) = true.
Proof. induction d; simpl; auto. Qed.

Lemma show_N_digits (n : N) :
  show_N n <> [] /\ forallb is_digit (show_N n) = true.
Proof.
  unfold show_N, NilZero.string_of_uint.
  pose proof (NilEmpty_digits (N.to_uint n)) as H.
  destruct (N.to_uint n); simpl in *; split; (discriminate || assumption || reflexivity).
Qed.

Lemma forallb_repeat {A} (f : A -> bool) (a : A) (n : nat) :
  f a = true -> forallb f (repeat a n) = true.
Proof. intros H. induction n; simpl; [reflexivity | now rewrite H]. Qed.

Section Tables.

Variable rt : Runtime.
Variable srv : Server.

Lemma toFixed2_parts (x : Q) :
  Qabs x < inject_Z (10 ^ 21) ->
  exists whole frac,
    toFixed2 rt x
    = (if Qle_bool 0 x then lit "" else lit "-") ++ whole ++ lit "." ++ frac
    /\ whole <> []
    /\ forallb is_digit whole = true
    /\ List.length frac = 2%nat
    /\ forallb is_digit frac = true.
Proof.
  intros Hx. unfold toFixed2.
  destruct (Qle_bool (inject_Z (10 ^ 21)) (Qabs x)) eqn:E.
  { apply Qle_bool_iff in E. now apply Qlt_not_le in Hx. }
  set (n := Z.to_N (Qfloor (Qabs x * inject_Z 100 + (1 # 2)))).
  destruct (show_N_digits n) as [Hne Hdig].
  set (d := repeat 48%N (3 - List.length (show_N n)) ++ show_N n).
  assert (Hlen : (3 <= List.length d)%nat).
  { unfold d. rewrite length_app, repeat_length. lia. }
  assert (Hd : forallb is_digit d = true).
  { unfold d. rewrite forallb_app, Hdig, forallb_repeat; reflexivity. }
  rewrite <- (firstn_skipn (List.length d - 2) d), forallb_app in Hd.
  apply andb_true_iff in Hd. destruct Hd as [Hw Hf].
  exists (firstn (List.length d - 2) d), (skipn (List.length d - 2) d).
  split; [reflexivity|]. split.
  - intros H. apply (f_equal (@List.length N)) in H.
    rewrite length_firstn in H. simpl in H. lia.
  - split; [assumption|]. split; [|assumption].
    rewrite length_skipn. lia.
Qed.

(** X14. For a number below 10^21 in size, [toFixed(2)] is an optional
    minus sign, at least one digit, a point and exactly two digits. *)
Theorem toFixed2_two_decimals (x : Q) :
  Qabs x < inject_Z (10 ^ 21) ->
  exists whole frac,
    toFixed2 rt x
    = (if Qle_bool 0 x then lit "" else lit "-") ++ whole ++ lit "." ++ frac
    /\ whole <> []
    /\ forallb is_digit whole = true
    /\ List.length frac = 2%nat
    /\ forallb is_digit frac = true.
Proof. apply toFixed2_parts. Qed.

(** X15. The Response Time cell of a row of the results and history tables
    is a dash exactly when the record has no response time or a response
    time of zero (response times below 10^21 seconds); and the Status Code
    cell is a dash exactly when the record has no status code. *)
Theorem table_cells_dash_iff (row : CheckRecord) :
  (forall t, response_time row = Some t -> Qabs t < inject_Z (10 ^ 21)) ->
  (cell_response_time (render_row rt row) = lit "-"
   <-> response_time row = None
       \/ exists t, response_time row = Some t /\ t == 0)
  /\ (cell_status_code (render_row rt row) = lit "-"
      <-> status_code row = None).
Proof.
  intros Hbound. split.
  - unfold render_row, response_time_cell. cbn [cell_response_time].
    destruct (response_time row) as [t|]; [|split; auto].
    destruct (truthy t) eqn:E.
    + split.
      * intros H. exfalso.
        destruct (toFixed2_parts t (Hbound t eq_refl))
          as (whole & frac & Heq & Hne & _ & Hlen & _).
        rewrite Heq in H. apply (f_equal (@List.length N)) in H.
        rewrite !length_app, Hlen in H.
        destruct whole; [congruence|]. simpl in H. lia.
      * intros [H|(t' & [= <-] & H)]; [discriminate|].
        apply truthy_false_iff in H. congruence.
    + split; [|reflexivity]. intros _. right. exists t.
      split; [reflexivity | now apply truthy_false_iff].
  - unfold render_row, status_code_cell. cbn [cell_status_code].
    destruct (status_code row) as [code|]; split; try reflexivity;
      try discriminate.
    intros H. now apply show_Z_not_dash in H.
Qed.

(** X16. What the Latest Check Results section shows.  Once [handleCheck]
    has completed it is absent if there are no results and otherwise has
    one row per result, never the skeleton; after a successful check these
    are the rows of the returned records, so a check that returns no
    record removes the section.  While a check is running, results shown
    before are replaced by a skeleton of 3 rows and 5 columns. *)
Theorem results_section_after_check (w : World) :
  let after := app (world_of (handleCheck rt srv w)) in
  results_section rt after
  = match results after with
    | [] => None
    | _ :: _ => Some (Rows (map (render_row rt) (results after)))
    end
  /\ (forall data,
        urlList_of (urls (app w)) <> [] ->
        post_records srv check_urls_endpoint (urlList_of (urls (app w)))
        = Fulfilled data ->
        results_section rt after
        = match data with
          | [] => None
          | _ :: _ => Some (Rows (map (render_row rt) data))
          end)
  /\ (results (app w) <> [] ->
      results_section rt (with_loading true (app w))
      = Some (LoadingSkeleton 3 5)).
Proof.
  cbv zeta. rewrite handleCheck_runs. cbn [world_of]. cbv zeta.
  split; [|split].
  - destruct (urlList_of (urls (app w))) as [|u us].
    + unfold results_section. cbn [app results loading with_loading].
      now destruct (results (app w)).
    + destruct (post_records srv check_urls_endpoint (u :: us)) as [data|e];
        unfold results_section;
        cbn [app results loading with_loading with_results].
      * now destruct data.
      * now destruct (results (app w)).
  - intros data Hne Hpost.
    destruct (urlList_of (urls (app w))) as [|u us]; [congruence|].
    rewrite Hpost. unfold results_section.
    cbn [app results loading with_loading with_results].
    now destruct data.
  - intros Hne. unfold results_section. cbn [results loading with_loading].
    destruct (results (app w)); [congruence | reflexivity].
Qed.

(** X17. The history table cannot tell an empty history from one that is
    still loading: after a fulfilled [fetchHistory] it shows one row per
    returned record, and the skeleton of 5 rows and 5 columns if no record
    was returned. *)
Theorem history_body_after_fetch (w : World) data :
  get_records srv (history_endpoint 20) = Fulfilled data ->
  history_body rt (app (world_of (fetchHistory srv w)))
  = match data with
    | [] => LoadingSkeleton 5 5
    | _ :: _ => Rows (map (render_row rt) data)
    end.
Proof.
  intros H.
  unfold fetchHistory, completed, fetchHistory_begin, resume, bind, emit, ret,
    await, setHistory, modify.
  change (API_BASE ++ lit "/history?limit=20") with (history_endpoint 20).
  rewrite H. unfold history_body. cbn [world_of app history with_history].
  now destruct data.
Qed.

(** X18. When the schedule status cannot be fetched, the Monitoring Status
    line reads N/A for the last and for the next scheduled check and the
    chip reads Email Alerts OFF, as it does at startup, whatever it read
    before. *)
Theorem monitor_panel_unreachable (w : World) e :
  get_status srv schedule_status_endpoint = Rejected e ->
  monitor_panel rt (app (world_of (fetchStatus srv w)))
  = {| last_check_text := lit "N/A";
       next_check_text := lit "N/A";
       alerts_chip := (lit "Email Alerts OFF", color_default) |}
  /\ monitor_panel rt (app (world_of (fetchStatus srv w)))
     = monitor_panel rt initial_state.
Proof.
  intros H. unfold fetchStatus, try_catch, axios_get, bind, emit, await.
  change (API_BASE ++ lit "/schedule/status") with schedule_status_endpoint.
  rewrite H. split; reflexivity.
Qed.

(** X19. After choosing another url whose trend request is rejected, the
    chart is still shown if the previous selection had trend data, and it
    plots the points of the previous selection under the new url. *)
Theorem chart_stale_after_failed_select (s : AppState) (u encoded : jsstring) e :
  u <> [] -> selectedUrl s <> u ->
  encodeURIComponent u = Some encoded ->
  get_records srv (history_by_url_endpoint encoded 30) = Rejected e ->
  trendData s <> [] ->
  let after := app (settle_detached srv (world_of (select_url u (start s)))) in
  selectedUrl after = u
  /\ exists chart,
       chart_section rt after = Some chart
       /\ response_time_series chart
          = map response_time_point (trendData s)
       /\ status_series chart = map status_point (trendData s).
Proof.
  intros Hne Hnew Henc Hget Htrend.
  unfold select_url, bind, gets, setSelectedUrl, modify, unawaited,
    fetchTrendData_begin. cbn [app log detached start].
  destruct (jsstring_eqb (selectedUrl s) u) eqn:E;
    [apply jsstring_eqb_eq in E; congruence|].
  destruct u as [|c u']; [congruence|]. cbn [Boolean negb].
  rewrite Henc, <- history_by_url_endpoint_30.
  unfold bind, emit, ret. cbn [app log detached List.app world_of].
  unfold settle_detached. cbn [app log detached settle_all resume].
  unfold bind, await. rewrite Hget. unfold throw. cbn [world_of app].
  cbv zeta.
  split; [reflexivity|].
  unfold chart_section. cbn [selectedUrl trendData with_selectedUrl Boolean].
  destruct (trendData s) as [|d ds] eqn:Et; [congruence|].
  eexists. split; [reflexivity|].
  unfold chartData. cbn [response_time_series status_series trendData
    with_selectedUrl]. rewrite Et. split; reflexivity.
Qed.

End Tables.

(** X20. The badge of a row and the chart agree: the badge is green
    exactly when the chart plots the record's status as 1 and red exactly
    when it plots 0, and the badge's label is the status as received. *)
Theorem badge_agrees_with_chart (d : CheckRecord) :
  fst (StatusBadge (status d)) = status d
  /\ (snd (StatusBadge (status d)) = color_success <-> status_point d = 1%Z)
  /\ (snd (StatusBadge (status d)) = color_error <-> status_point d = 0%Z).
Proof.
  unfold StatusBadge, status_point. cbn [fst snd].
  destruct (jsstring_eqb (status d) (lit "UP")); repeat split;
    congruence || discriminate.
Qed.

(** ** The manual check *)

(** X21. [triggerManualCheck] sends exactly one POST, to the run-now
    endpoint.  If it is fulfilled the button stays disabled and one timer
    of 2000 ms is set, whose firing enables it; if it is rejected the
    button is enabled at once and no timer is set.  Either way the flag is
    false once the timers have fired, and nothing else on the page has
    changed. *)
Theorem triggerManualCheck_reenables (run_now : jsstring -> settled unit)
    (s : AppState) :
  let r := triggerManualCheck run_now s in
  mc_posts r = [lit "http://localhost:8000/schedule/run_now"]
  /\ (manualCheckLoading (mc_app r), mc_timers r)
     = match run_now run_now_endpoint with
       | Fulfilled _ => (true, [2000%N])
       | Rejected _ => (false, [])
       end
  /\ timers_fire (mc_timers r) (mc_app r) = with_manualCheckLoading false s.
Proof.
  unfold triggerManualCheck.
  change (API_BASE ++ lit "/schedule/run_now") with run_now_endpoint.
  destruct (run_now run_now_endpoint); repeat split.
Qed.

(** ** These theorems at work on the sample page *)

Lemma handleCheck_refetches_only_after_success_witness :
  log (world_of (handleCheck Sample.rt Sample.up (start Sample.shown)))
  = [HttpPost check_urls_endpoint
       [lit "https://good.example"; lit "https://bad.example"];
     HttpGet (history_endpoint 20); HttpGet metrics_endpoint].
Proof.
  destruct (handleCheck_refetches_only_after_success Sample.rt Sample.up
              Sample.shown (history_endpoint 20))
    as (_ & data & _ & Hlog).
  - right. left. reflexivity.
  - exact Hlog.
Defined.

Lemma handleCheck_success_then_settled_witness :
  history Sample.shown = [Sample.instant; Sample.bad]
  /\ history
       (app (settle_detached Sample.up
               (world_of (handleCheck Sample.rt Sample.up
                            (start Sample.shown)))))
     = [Sample.bad; Sample.good].
Proof.
  split; [reflexivity|].
  destruct (handleCheck_success_then_settled Sample.rt Sample.up Sample.shown
              [Sample.good; Sample.bad]) as (_ & Hhist & _).
  - discriminate.
  - reflexivity.
  - exact Hhist.
Defined.

Lemma select_url_fetches_trend_witness :
  trendData Sample.shown = [Sample.bad; Sample.instant; Sample.good]
  /\ trendData
       (app (settle_detached Sample.up
               (world_of (select_url (lit "https://bad.example")
                            (start Sample.shown)))))
     = [Sample.bad; Sample.good].
Proof.
  split; [reflexivity|].
  destruct (select_url_fetches_trend Sample.up Sample.shown
              (lit "https://bad.example"))
    as (encoded & w' & _ & Hrun & _ & _ & _ & _ & Htrend).
  - discriminate.
  - reflexivity.
  - intros H. vm_compute in H. discriminate H.
  - rewrite Hrun. cbn [world_of]. rewrite Htrend. reflexivity.
Defined.

Lemma select_url_without_request_witness :
  log (world_of (select_url (lit "https://good.example") (start Sample.shown)))
  = []
  /\ log (world_of (select_url [0xD800%N] (start Sample.shown))) = []
  /\ selectedUrl
       (app (world_of (select_url [0xD800%N] (start Sample.shown))))
     = [0xD800%N].
Proof.
  rewrite (select_url_without_request Sample.shown (lit "https://good.example")
             (or_introl eq_refl)).
  rewrite (select_url_without_request Sample.shown [0xD800%N]
             (or_intror eq_refl)).
  repeat split.
Defined.

Lemma encodeURIComponent_safe_witness :
  encodeURIComponent (lit "https://a.example/?q=1 2&limit=1")
  = Some (lit "https%3A%2F%2Fa.example%2F%3Fq%3D1%202%26limit%3D1")
  /\ ~ In 0x26%N (lit "https%3A%2F%2Fa.example%2F%3Fq%3D1%202%26limit%3D1").
Proof.
  split; [reflexivity|].
  destruct (encodeURIComponent_safe
              (lit "https://a.example/?q=1 2&limit=1")
              (lit "https%3A%2F%2Fa.example%2F%3Fq%3D1%202%26limit%3D1")
              eq_refl eq_refl) as [_ H].
  intros Hin. destruct (H _ Hin) as [Hamp _]. now apply Hamp.
Defined.

Lemma encodeURIComponent_app_witness :
  encodeURIComponent (lit "a b" ++ [0xD83D; 0xDE00]%N)
  = Some (lit "a%20b" ++ lit "%F0%9F%98%80").
Proof.
  exact (encodeURIComponent_app (lit "a b") (lit "a%20b") [0xD83D; 0xDE00]%N
           eq_refl).
Defined.

Lemma toFixed2_two_decimals_witness :
  exists whole frac,
    toFixed2 Sample.rt (1 # 5) = whole ++ lit "." ++ frac
    /\ List.length frac = 2%nat.
Proof.
  destruct (toFixed2_two_decimals Sample.rt (1 # 5) eq_refl)
    as (whole & frac & Heq & _ & _ & Hlen & _).
  exists whole, frac. split; [exact Heq | exact Hlen].
Defined.

Lemma table_cells_dash_iff_witness :
  cell_response_time (render_row Sample.rt Sample.good) <> lit "-"
  /\ cell_response_time (render_row Sample.rt Sample.bad) = lit "-".
Proof.
  split.
  - intros H.
    destruct (table_cells_dash_iff Sample.rt Sample.good) as [[Hdash _] _].
    + intros t [= <-]. reflexivity.
    + destruct (Hdash H) as [Hnone|(t & [= <-] & Hzero)]; discriminate.
  - destruct (table_cells_dash_iff Sample.rt Sample.bad) as [[_ Hdash] _].
    + intros t [=].
    + apply Hdash. left. reflexivity.
Defined.

Lemma history_body_after_fetch_witness :
  history_body Sample.rt
    (app (world_of (fetchHistory Sample.up (start initial_state))))
  = Rows [render_row Sample.rt Sample.bad; render_row Sample.rt Sample.good]
  /\ history_body Sample.rt initial_state = LoadingSkeleton 5 5.
Proof.
  split; [|reflexivity].
  exact (history_body_after_fetch Sample.rt Sample.up (start initial_state)
           [Sample.bad; Sample.good] eq_refl).
Defined.

Lemma monitor_panel_unreachable_witness :
  alerts_chip (monitor_panel Sample.rt Sample.shown)
  = (lit "Email Alerts ON", color_success)
  /\ alerts_chip
       (monitor_panel Sample.rt
          (app (world_of (fetchStatus Sample.down (start Sample.shown)))))
     = (lit "Email Alerts OFF", color_default).
Proof.
  split; [reflexivity|].
  destruct (monitor_panel_unreachable Sample.rt Sample.down
              (start Sample.shown) ErrRequest eq_refl) as [H _].
  rewrite H. reflexivity.
Defined.

Lemma chart_stale_after_failed_select_witness :
  exists chart,
    chart_section Sample.rt
      (app (settle_detached Sample.down
              (world_of (select_url (lit "https://bad.example")
                           (start Sample.shown)))))
    = Some chart
    /\ status_series chart = [0; 1; 1]%Z.
Proof.
  destruct (chart_stale_after_failed_select Sample.rt Sample.down Sample.shown
              (lit "https://bad.example") (lit "https%3A%2F%2Fbad.example")
              ErrRequest)
    as (_ & chart & Hchart & _ & Hstatus).
  - discriminate.
  - intros H. vm_compute in H. discriminate H.
  - reflexivity.
  - reflexivity.
  - discriminate.
  - exists chart. split; [exact Hchart | exact Hstatus].
Defined.
